(** * Strategy constructors of [hypothesis.strategies]

    A shallow embedding of the public strategy-construction functions of
    [src/hypothesis/strategies.py] ([just], [one_of], [integers], [floats],
    [tuples], [lists], [sets], [fixed_dictionaries], [dictionaries],
    [fractions]) and of the private validation helpers they call
    ([check_type], [check_strategy], [check_valid_size],
    [check_valid_sizes]).

    Python exceptions are modelled by an error monad, Python numbers by
    unbounded integers and IEEE-754 binary64 floats, and the strategy
    classes imported from [hypothesis.searchstrategy] by the constructors
    of an inductive type that records the arguments each class is built
    with.  A keyword argument is an [option]: [None] is Python's [None],
    the value of a keyword that is left out.  The texts of error messages
    are not modelled, only the class of the exception raised, which is
    the exception of the [%] formatting where building the message itself
    fails. *)

From Stdlib Require Import ZArith List Bool Lia.
From Stdlib Require Import SpecFloat.
Import ListNotations.

Open Scope Z_scope.

Set Warnings "-register-all".

(** ** Exceptions *)

Inductive exn : Type :=
| InvalidArgument        (* hypothesis.errors.InvalidArgument *)
| UnsatisfiedAssumption  (* raised by hypothesis.control.assume *)
| OverflowError          (* int too large to convert to float *)
| TypeError
| ValueError
| ZeroDivisionError
| AssertionError
| RecursionError.

Inductive result (A : Type) : Type :=
| Ok (a : A)
| Raise (e : exn).

Arguments Ok {A} a.
Arguments Raise {A} e.

Definition bind {A B : Type} (c : result A) (k : A -> result B) : result B :=
  match c with
  | Ok a => k a
  | Raise e => Raise e
  end.

Notation "x <- c ;; k" := (bind c (fun x => k))
  (at level 61, c at next level, right associativity).
Notation "c ;;; k" := (bind c (fun _ => k))
  (at level 61, right associativity).

(** ** Python numbers

    A number is an [int] (unbounded; [bool] is a subclass of [int], so
    [True] and [False] are the ints 1 and 0) or a [float] (binary64). *)

Module PyFloat.

Definition prec : Z := 53.
Definition emax : Z := 1024.

Definition inf : spec_float := S754_infinity false.      (* float('inf') *)
Definition neg_inf : spec_float := S754_infinity true.   (* float('-inf') *)
Definition nan : spec_float := S754_nan.
Definition zero : spec_float := S754_zero false.

  (** The literals [0.5] and the largest finite double. *)
Definition half : spec_float :=
    Eval vm_compute in binary_normalize prec emax 1 (-1) false.
Definition max_float : spec_float :=
    Eval vm_compute in SFmax_float prec emax.

Definition is_nan (f : spec_float) : bool :=
    match f with S754_nan => true | _ => false end.

Definition is_inf (f : spec_float) : bool :=
    match f with S754_infinity _ => true | _ => false end.

Definition is_finite (f : spec_float) : bool :=
    match f with S754_zero _ | S754_finite _ _ _ => true | _ => false end.

Definition add := SFadd prec emax.
Definition sub := SFsub prec emax.
Definition mul := SFmul prec emax.

  (** [float(z)] for an int [z]: round to nearest even; CPython raises
      OverflowError when the rounded magnitude leaves the finite range. *)
Definition of_int (z : Z) : result spec_float :=
    match binary_normalize prec emax z 0 false with
    | S754_infinity _ => Raise OverflowError
    | f => Ok f
    end.

  (** Python compares an int with a float by exact value.  A finite float
      [(-1)^s * m * 2^e] is compared with [z] after clearing the power of
      two; [None] is the unordered outcome (NaN). *)
Definition int_compare (z : Z) (f : spec_float) : option comparison :=
    match f with
    | S754_nan => None
    | S754_infinity s => Some (if s then Gt else Lt)
    | S754_zero _ => Some (z ?= 0)
    | S754_finite s m e =>
        let v := cond_Zopp s (Zpos m) in
        Some (if 0 <=? e then z ?= v * 2 ^ e else z * 2 ^ (- e) ?= v)
    end.

End PyFloat.

Inductive num : Type :=
| NInt (z : Z)
| NFloat (f : spec_float).

Definition to_float (n : num) : result spec_float :=
  match n with
  | NInt z => PyFloat.of_int z
  | NFloat f => Ok f
  end.

Definition num_compare (a b : num) : option comparison :=
  match a, b with
  | NInt x, NInt y => Some (x ?= y)
  | NInt x, NFloat g => PyFloat.int_compare x g
  | NFloat f, NInt y => option_map CompOpp (PyFloat.int_compare y f)
  | NFloat f, NFloat g => SFcompare f g
  end.

(** [a == b], [a < b], [a > b], [a <= b], [a >= b]. *)
Definition num_eqb (a b : num) : bool :=
  match num_compare a b with Some Eq => true | _ => false end.
Definition num_ltb (a b : num) : bool :=
  match num_compare a b with Some Lt => true | _ => false end.
Definition num_gtb (a b : num) : bool :=
  match num_compare a b with Some Gt => true | _ => false end.
Definition num_leb (a b : num) : bool :=
  match num_compare a b with Some (Lt | Eq) => true | _ => false end.
Definition num_geb (a b : num) : bool :=
  match num_compare a b with Some (Gt | Eq) => true | _ => false end.

(** Arithmetic: ints stay exact; a mixed operation converts the int
    operand to float first, which may raise OverflowError. *)
Definition num_arith (fz : Z -> Z -> Z)
    (ff : spec_float -> spec_float -> spec_float) (a b : num) : result num :=
  match a, b with
  | NInt x, NInt y => Ok (NInt (fz x y))
  | _, _ =>
      fa <- to_float a ;;
      fb <- to_float b ;;
      Ok (NFloat (ff fa fb))
  end.

Definition num_add : num -> num -> result num := num_arith Z.add PyFloat.add.
Definition num_sub : num -> num -> result num := num_arith Z.sub PyFloat.sub.
Definition num_mul : num -> num -> result num := num_arith Z.mul PyFloat.mul.

(** [math.isnan] and [math.isinf] convert their argument to float. *)
Definition math_isnan (n : num) : result bool :=
  f <- to_float n ;; Ok (PyFloat.is_nan f).
Definition math_isinf (n : num) : result bool :=
  f <- to_float n ;; Ok (PyFloat.is_inf f).

(** Truth value of a number: zero is false, NaN is true. *)
Definition num_truthy (n : num) : bool :=
  match n with
  | NInt z => negb (z =? 0)
  | NFloat (S754_zero _) => false
  | NFloat _ => true
  end.

(** The builtin [max(a, b)]: the first argument unless the second is
    strictly greater. *)
Definition py_max (a b : num) : num := if num_gtb b a then b else a.

(** [x or d] for an optional number [x] ([None] is false). *)
Definition num_or (x : option num) (d : num) : num :=
  match x with
  | Some n => if num_truthy n then n else d
  | None => d
  end.

(** ** Python values

    The values strategies are built from and reify to.  A [dict] is an
    insertion-ordered association list without duplicate keys; object
    identity is not modelled. *)

Inductive value : Type :=
| VNone
| VNum (n : num)
| VFraction (numerator denominator : Z)
| VTuple (items : list value)
| VList (items : list value)
| VSet (items : list value)
| VDict (items : list (value * value)).

Abbreviation VInt z := (VNum (NInt z)).
Abbreviation VFloat f := (VNum (NFloat f)).

(** The exact rational value [(numerator, denominator)] of a finite
    float. *)
Definition rational_of_float (f : spec_float) : option (Z * Z) :=
  match f with
  | S754_zero _ => Some (0, 1)
  | S754_finite s m e =>
      let v := cond_Zopp s (Zpos m) in
      Some (if 0 <=? e then (v * 2 ^ e, 1) else (v, 2 ^ (- e)))
  | _ => None
  end.

(** [a == b] on the hashable values (the ones that can be dict keys). *)
Fixpoint py_eqb (a b : value) : bool :=
  match a, b with
  | VNone, VNone => true
  | VNum x, VNum y => num_eqb x y
  | VFraction n d, VFraction n' d' => (n =? n') && (d =? d')
  | VFraction n d, VNum (NInt z) | VNum (NInt z), VFraction n d => n =? z * d
  | VFraction n d, VNum (NFloat f) | VNum (NFloat f), VFraction n d =>
      match rational_of_float f with
      | Some (p, q) => n * q =? p * d
      | None => false
      end
  | VTuple xs, VTuple ys =>
      (fix all2 (xs ys : list value) : bool :=
         match xs, ys with
         | [], [] => true
         | x :: xs', y :: ys' => py_eqb x y && all2 xs' ys'
         | _, _ => false
         end) xs ys
  | _, _ => false
  end.

(** Lists, sets and dicts are unhashable; a tuple is hashable when its
    items are. *)
Fixpoint hashable (v : value) : bool :=
  match v with
  | VNone | VNum _ | VFraction _ _ => true
  | VTuple items => forallb hashable items
  | VList _ | VSet _ | VDict _ => false
  end.

Definition dict : Type := list (value * value).

(** The insertion behind [d[k] = v]: the value of the first key equal to
    [k] is replaced, and a new key goes to the end.  Python looks a key up
    by identity before [==]; the two agree on every key that is equal to
    itself, and the occurrences of a key that is not (a NaN) are taken to
    be distinct objects here. *)
Fixpoint dict_update (k v : value) (d : dict) : dict :=
  match d with
  | [] => [(k, v)]
  | (k', v') :: rest =>
      if py_eqb k' k then (k', v) :: rest else (k', v') :: dict_update k v rest
  end.

(** [d[k] = v]. *)
Definition dict_setitem (k v : value) (d : dict) : result dict :=
  if hashable k then Ok (dict_update k v d) else Raise TypeError.

(** [len(d)] of a dict. *)
Definition dict_len (d : dict) : Z := Z.of_nat (length d).

(** [len(x)]. *)
Definition py_len (x : value) : result Z :=
  match x with
  | VTuple items | VList items | VSet items => Ok (Z.of_nat (length items))
  | VDict items => Ok (dict_len items)
  | _ => Raise TypeError
  end.

(** Iterating over [x] (a dict yields its keys). *)
Definition py_iter (x : value) : result (list value) :=
  match x with
  | VTuple items | VList items | VSet items => Ok items
  | VDict items => Ok (map fst items)
  | _ => Raise TypeError
  end.

(** The unpacking [k, v = item]. *)
Definition unpack_pair (item : value) : result (value * value) :=
  items <- py_iter item ;;
  match items with
  | [k; v] => Ok (k, v)
  | _ => Raise ValueError
  end.

(** [fractions.Fraction] of the standard library applied to the argument
    list [args]: on rational arguments, the quotient in lowest terms with
    a positive denominator. *)
Definition normalize (n d : Z) : value :=
  let g := Z.gcd n d in
  let g := if d <? 0 then - g else g in
  VFraction (n / g) (d / g).

Definition as_rational (v : value) : option (Z * Z) :=
  match v with
  | VNum (NInt z) => Some (z, 1)
  | VFraction n d => Some (n, d)
  | _ => None
  end.

Definition Fraction (args : list value) : result value :=
  match args with
  | [] => Ok (VFraction 0 1)
  | [VNum (NFloat f)] =>
      match rational_of_float f with
      | Some (n, d) => Ok (normalize n d)
      | None => if PyFloat.is_nan f then Raise ValueError else Raise OverflowError
      end
  | [a] =>
      match as_rational a with
      | Some (n, d) => Ok (VFraction n d)
      | None => Raise TypeError
      end
  | [a; b] =>
      match as_rational a, as_rational b with
      | Some (n1, d1), Some (n2, d2) =>
          if n2 =? 0 then Raise ZeroDivisionError
          else Ok (normalize (n1 * d2) (d1 * n2))
      | _, _ => Raise TypeError
      end
  | _ => Raise TypeError
  end.

(** Modelled from the spec: [hypothesis.control.assume], which is not under
    src/.  The spec says a draw failing the condition is discarded through
    the filter mechanism; the discard is the exception
    UnsatisfiedAssumption. *)
Definition assume (condition : bool) : result unit :=
  if condition then Ok tt else Raise UnsatisfiedAssumption.

(** ** Strategies

    The functions passed to [map] and [filter] in strategies.py, as
    closures over the variables they capture. *)

Inductive closure : Type :=
| integers_lambda (max_value : num)                    (* lambda x: max_value - x *)
| sets_lambda (min_size : num)                         (* lambda x: len(x) >= min_size *)
| build_dict_closure (min_size max_size : option num)  (* build_dict, with dict_class = dict *)
| fractions_lambda.                                    (* lambda t: Fraction applied to the items of t *)

(** The strategy classes of [hypothesis.searchstrategy], one constructor
    per class, with the arguments strategies.py passes.  A keyword that a
    call site leaves out is [None]. *)
Inductive SearchStrategy : Type :=
| JustStrategy (value_ : value)
| OneOfStrategy (strategies : list SearchStrategy)
| RandomGeometricIntStrategy
| WideRangeIntStrategy
| IntegersFromStrategy (lower_bound : num) (average_size : option num)
| BoundedIntStrategy (start end_ : num)
| WrapperFloatStrategy (sub_strategy : SearchStrategy)
| GaussianFloatStrategy
| BoundedFloatStrategy
| ExponentialFloatStrategy
| JustIntFloats
| NastyFloats
| FullRangeFloats
| FixedBoundedFloatStrategy (lower_bound upper_bound : num)
| FloatsFromBase (base : num) (sign : Z)
| TupleStrategy (strategies : list SearchStrategy)
| ListStrategy (strategies : list SearchStrategy)
    (average_length min_size max_size : option num)
| SingleElementListStrategy (element_strategy length_strategy : SearchStrategy)
| SetStrategy (strategies : list SearchStrategy)
    (average_length max_size : option num)
| FixedKeysDictStrategy (mapping : list (value * SearchStrategy))
| MappedStrategy (mapped_strategy : SearchStrategy) (pack : closure)
| FilteredStrategy (filtered_strategy : SearchStrategy) (condition : closure).

(** A Python object handed to a constructor: a strategy or a plain value. *)
Inductive object : Type :=
| OValue (v : value)
| OStrategy (s : SearchStrategy).

Definition is_None (o : object) : bool :=
  match o with OValue VNone => true | _ => false end.

(** Modelled from the spec: the methods [map], [filter] and [__or__] of
    [SearchStrategy], whose class is defined in hypothesis.searchstrategy
    and is not under src/.  The spec has [map(f)] wrap reification with
    [f], [filter] keep the draws that satisfy the predicate, and unions
    [combined with one_of]. *)
Module Strategy.
Definition map (s : SearchStrategy) (f : closure) : SearchStrategy :=
    MappedStrategy s f.
Definition filter (s : SearchStrategy) (p : closure) : SearchStrategy :=
    FilteredStrategy s p.
Definition or_ (s t : SearchStrategy) : SearchStrategy :=
    OneOfStrategy [s; t].
End Strategy.

(** *** The closures of strategies.py *)

(** The loop of [build_dict]: [for k, v in data: result[k] = v], leaving
    the loop right after the insertion that makes [len(result)] reach
    [max_size]. *)
Fixpoint build_dict_loop (max_size : option num) (data : list value)
    (res : dict) : result dict :=
  match data with
  | [] => Ok res
  | item :: data' =>
      kv <- unpack_pair item ;;
      res' <- dict_setitem (fst kv) (snd kv) res ;;
      if match max_size with
         | Some m => num_geb (NInt (dict_len res')) m
         | None => false
         end
      then Ok res'
      else build_dict_loop max_size data' res'
  end.

Definition build_dict (min_size max_size : option num) (data : value)
    : result value :=
  items <- py_iter data ;;
  res <- build_dict_loop max_size items [] ;;
  assume match min_size with
         | None => true
         | Some m => num_geb (NInt (dict_len res)) m
         end ;;;
  Ok (VDict res).

Definition apply (f : closure) (x : value) : result value :=
  match f with
  | integers_lambda max_value =>
      match x with
      | VNum n => r <- num_sub max_value n ;; Ok (VNum r)
      | _ => Raise TypeError
      end
  | sets_lambda min_size =>
      n <- py_len x ;;
      Ok (VInt (if num_geb (NInt n) min_size then 1 else 0))
  | build_dict_closure min_size max_size => build_dict min_size max_size x
  | fractions_lambda => args <- py_iter x ;; Fraction args
  end.

(** Truth value of an object returned by a filter condition. *)
Definition py_truthy (v : value) : bool :=
  match v with
  | VNone => false
  | VNum n => num_truthy n
  | VFraction n _ => negb (n =? 0)
  | VTuple items | VList items | VSet items => negb (Nat.eqb (length items) 0)
  | VDict items => negb (Nat.eqb (length items) 0)
  end.

(** A size [n] lies within optional bounds. *)
Definition size_within (min_size max_size : option num) (n : Z) : Prop :=
  (forall a, min_size = Some a -> num_leb a (NInt n) = true) /\
  (forall b, max_size = Some b -> num_leb (NInt n) b = true).

(** Modelled from the spec: reification for the strategy classes of
    hypothesis.searchstrategy (not under src/) that the properties below
    speak about.  [reifies s r] says a draw from [s] can reify to the
    value, or raise the exception, [r].  The rules follow the docstrings
    in strategies.py and the spec: [just] only generates its value;
    [integers] keeps every value [>= min_value] and [<= max_value];
    [one_of] generates from any of its arguments; [tuples] generates the
    value at index i from the i-th argument; [lists] has its length in
    [[min_size, max_size]]; the single-element list draws only a length
    and repeats the one element; [fixed_dictionaries] has exactly the
    keys of the mapping; [map(f)] wraps reification with [f]; [filter]
    keeps the values on which the condition holds.  The leaf float
    strategies are given no rule: no property below depends on them. *)
Inductive reifies : SearchStrategy -> result value -> Prop :=
| reify_just v :
    reifies (JustStrategy v) (Ok v)
| reify_geometric z :
    reifies RandomGeometricIntStrategy (Ok (VInt z))
| reify_wide_range z :
    reifies WideRangeIntStrategy (Ok (VInt z))
| reify_integers_from lo avg z :
    num_leb lo (NInt z) = true ->
    reifies (IntegersFromStrategy lo avg) (Ok (VInt z))
| reify_bounded_int lo hi z :
    num_leb lo (NInt z) = true -> num_leb (NInt z) hi = true ->
    reifies (BoundedIntStrategy lo hi) (Ok (VInt z))
| reify_one_of ss s r :
    In s ss -> reifies s r ->
    reifies (OneOfStrategy ss) r
| reify_tuple ss vs :
    Forall2 (fun s v => reifies s (Ok v)) ss vs ->
    reifies (TupleStrategy ss) (Ok (VTuple vs))
| reify_tuple_raise ss s e :
    In s ss -> reifies s (Raise e) ->
    reifies (TupleStrategy ss) (Raise e)
| reify_list ss avg mn mx vs :
    Forall (fun v => Exists (fun s => reifies s (Ok v)) ss) vs ->
    size_within mn mx (Z.of_nat (length vs)) ->
    reifies (ListStrategy ss avg mn mx) (Ok (VList vs))
| reify_list_raise ss avg mn mx s e :
    In s ss -> reifies s (Raise e) ->
    reifies (ListStrategy ss avg mn mx) (Raise e)
| reify_single_element_list s ls n v :
    reifies ls (Ok (VInt n)) -> reifies s (Ok v) ->
    reifies (SingleElementListStrategy s ls) (Ok (VList (repeat v (Z.to_nat n))))
| reify_single_element_list_raise s ls e :
    reifies s (Raise e) \/ reifies ls (Raise e) ->
    reifies (SingleElementListStrategy s ls) (Raise e)
| reify_fixed_keys_dict mapping items :
    Forall2 (fun kv item => fst item = fst kv /\ reifies (snd kv) (Ok (snd item)))
            mapping items ->
    reifies (FixedKeysDictStrategy mapping) (Ok (VDict items))
| reify_map s f u :
    reifies s (Ok u) ->
    reifies (MappedStrategy s f) (apply f u)
| reify_map_raise s f e :
    reifies s (Raise e) ->
    reifies (MappedStrategy s f) (Raise e)
| reify_filter s p v t :
    reifies s (Ok v) -> apply p v = Ok t -> py_truthy t = true ->
    reifies (FilteredStrategy s p) (Ok v)
| reify_filter_raise s p e :
    reifies s (Raise e) ->
    reifies (FilteredStrategy s p) (Raise e).

(** ** Private API: argument validation *)

(** The types [check_type] is called with. *)
Inductive pytype : Type :=
| integer_types                  (* int (and long) *)
| integer_types_and_float        (* integer_types + (float,) *)
| SearchStrategy_type.

Definition isinstance (arg : object) (typ : pytype) : bool :=
  match typ, arg with
  | integer_types, OValue (VNum (NInt _)) => true
  | integer_types_and_float, OValue (VNum _) => true
  | SearchStrategy_type, OStrategy _ => true
  | _, _ => false
  end.

Definition check_type (typ : pytype) (arg : object) : result unit :=
  if isinstance arg typ then Ok tt else Raise InvalidArgument.

(** [check_strategy(arg)]; the result is [arg] itself, now known to be a
    strategy. *)
Definition check_strategy (arg : object) : result SearchStrategy :=
  check_type SearchStrategy_type arg ;;;
  match arg with
  | OStrategy s => Ok s
  | OValue _ => Raise InvalidArgument
  end.

(** [check_valid_size(value, name)]; [name] only appears in the error
    message. *)
Definition check_valid_size (value_ : option num) : result unit :=
  match value_ with
  | None => Ok tt
  | Some v =>
      check_type integer_types_and_float (OValue (VNum v)) ;;;
      if num_ltb v (NInt 0) then Raise InvalidArgument
      else match v with
           | NFloat f => if PyFloat.is_nan f then Raise InvalidArgument else Ok tt
           | NInt _ => Ok tt
           end
  end.

(** [b < a] for optional numbers that are both present. *)
Definition below (b a : option num) : bool :=
  match b, a with
  | Some y, Some x => num_ltb y x
  | _, _ => false
  end.

Definition check_valid_sizes (min_size average_size max_size : option num)
    : result unit :=
  check_valid_size min_size ;;;
  check_valid_size max_size ;;;
  check_valid_size average_size ;;;
  (if below max_size min_size then Raise InvalidArgument else Ok tt) ;;;
  (if below max_size average_size then Raise InvalidArgument else Ok tt) ;;;
  (if below average_size min_size then Raise InvalidArgument else Ok tt).

(** ** Public constructors *)

Definition just (value_ : value) : SearchStrategy := JustStrategy value_.

Fixpoint check_strategies (args : list object) : result (list SearchStrategy) :=
  match args with
  | [] => Ok []
  | arg :: rest =>
      s <- check_strategy arg ;;
      ss <- check_strategies rest ;;
      Ok (s :: ss)
  end.

Definition one_of (arg : object) (args : list object) : result SearchStrategy :=
  match args with
  | [] => check_strategy arg
  | _ :: _ =>
      ss <- check_strategies (arg :: args) ;;
      Ok (OneOfStrategy ss)
  end.

Definition integers (min_value max_value : option num) : result SearchStrategy :=
  match min_value with
  | None =>
      match max_value with
      | None =>
          Ok (Strategy.or_ RandomGeometricIntStrategy WideRangeIntStrategy)
      | Some max_value =>
          check_type integer_types (OValue (VNum max_value)) ;;;
          Ok (Strategy.map (IntegersFromStrategy (NInt 0) None)
                           (integers_lambda max_value))
      end
  | Some min_value =>
      check_type integer_types (OValue (VNum min_value)) ;;;
      match max_value with
      | None => Ok (IntegersFromStrategy min_value None)
      | Some max_value =>
          if num_eqb min_value max_value then Ok (just (VNum min_value))
          else if num_gtb min_value max_value then Raise InvalidArgument
          else Ok (BoundedIntStrategy min_value max_value)
      end
  end.

(** The NaN test on both end points at the top of [floats]. *)
Definition check_end_point (e : option num) : result unit :=
  match e with
  | None => Ok tt
  | Some n =>
      nan <- math_isnan n ;;
      if nan then Raise InvalidArgument else Ok tt
  end.

(** [floats] calls itself on the two halves of an infinitely wide range.
    [floats_body self] is its body with the recursive calls going to
    [self]; [floats_fuel] bounds the call depth and raises RecursionError
    beyond it; [floats] allows depth two, which is never exceeded
    ([floats_fuel_stable] below). *)
Definition floats_body
    (self : option num -> option num -> result SearchStrategy)
    (min_value max_value : option num) : result SearchStrategy :=
  check_end_point min_value ;;;
  check_end_point max_value ;;;
  let min_value :=
    match min_value with
    | Some n => if num_eqb n (NFloat PyFloat.neg_inf) then None else Some n
    | None => None
    end in
  let max_value :=
    match max_value with
    | Some n => if num_eqb n (NFloat PyFloat.inf) then None else Some n
    | None => None
    end in
  match min_value, max_value with
  | None, None =>
      Ok (WrapperFloatStrategy
            (Strategy.or_
               (Strategy.or_
                  (Strategy.or_
                     (Strategy.or_
                        (Strategy.or_ GaussianFloatStrategy BoundedFloatStrategy)
                        ExponentialFloatStrategy)
                     JustIntFloats)
                  NastyFloats)
               FullRangeFloats))
  | Some min_value, Some max_value =>
      if num_ltb max_value min_value then Raise InvalidArgument
      else if num_eqb min_value max_value then Ok (just (VNum min_value))
      else
        width <- num_sub max_value min_value ;;
        infinite <- math_isinf width ;;
        if infinite then
          if num_ltb min_value (NInt 0) && num_gtb max_value (NInt 0) then
            upper <- self (Some (NInt 0)) (Some max_value) ;;
            lower <- self (Some min_value) (Some (NInt 0)) ;;
            Ok (Strategy.or_ upper lower)
          else Raise AssertionError
        else Ok (FixedBoundedFloatStrategy min_value max_value)
  | Some min_value, None =>
      Ok (Strategy.or_ (FloatsFromBase min_value 1)
                       (just (VFloat PyFloat.inf)))
  | None, Some max_value =>
      Ok (Strategy.or_ (FloatsFromBase max_value (-1))
                       (just (VFloat PyFloat.neg_inf)))
  end.

Fixpoint floats_fuel (fuel : nat) (min_value max_value : option num)
    : result SearchStrategy :=
  match fuel with
  | O => Raise RecursionError
  | S fuel' => floats_body (floats_fuel fuel') min_value max_value
  end.

Definition floats (min_value max_value : option num) : result SearchStrategy :=
  floats_fuel 2 min_value max_value.

Definition tuples (args : list object) : result SearchStrategy :=
  ss <- check_strategies args ;;
  Ok (TupleStrategy ss).

Fixpoint check_mapping (mapping : list (value * object))
    : result (list (value * SearchStrategy)) :=
  match mapping with
  | [] => Ok []
  | (k, v) :: rest =>
      s <- check_strategy v ;;
      m <- check_mapping rest ;;
      Ok ((k, s) :: m)
  end.

(** [mapping] is a dict by its type, so [check_type(dict, mapping)] has
    nothing to reject; its values are checked to be strategies. *)
Definition fixed_dictionaries (mapping : list (value * object))
    : result SearchStrategy :=
  m <- check_mapping mapping ;;
  Ok (FixedKeysDictStrategy m).

Definition fractions : result SearchStrategy :=
  numerators <- integers None None ;;
  denominators <- integers (Some (NInt 1)) None ;;
  pairs <- tuples [OStrategy numerators; OStrategy denominators] ;;
  Ok (Strategy.map pairs fractions_lambda).

(** An environment for the examples: every [just] strategy has one
    distinct template, anything else is unbounded, and the default
    average list length is 25.0. *)
Definition example_upper_bound (s : SearchStrategy) : num :=
  match s with
  | JustStrategy _ => NInt 1
  | _ => NFloat PyFloat.inf
  end.

Definition float_25 : spec_float :=
  Eval vm_compute in binary_normalize PyFloat.prec PyFloat.emax 25 0 false.

Definition example_average_list_length : num := NFloat float_25.




(** ['%d' % n]: formatting a number as a decimal integer converts it to an
    int first, which raises OverflowError on an infinity and ValueError on
    a NaN; a finite float is truncated. *)
Definition format_d (n : num) : result unit :=
  match n with
  | NInt _ => Ok tt
  | NFloat f =>
      if PyFloat.is_nan f then Raise ValueError
      else if PyFloat.is_inf f then Raise OverflowError
      else Ok tt
  end.

(** Modelled from the spec: the call
    [ListStrategy(strategies, average_length=..., min_size=..., max_size=...)]
    of the class in hypothesis.searchstrategy.collections, which is not
    under src/.  The spec makes [average_size] the size hint of a list
    strategy; the constructor of the class takes it as [average_length] and
    asserts [average_length > 0], so a hint that is zero (or NaN) ends the
    call with AssertionError. *)
Definition new_ListStrategy (strategies : list SearchStrategy)
    (average_length min_size : num) (max_size : option num)
    : result SearchStrategy :=
  if num_gtb average_length (NInt 0)
  then Ok (ListStrategy strategies (Some average_length) (Some min_size) max_size)
  else Raise AssertionError.

Section Collections.

  (** The attribute [template_upper_bound] of a strategy and the setting
      [Settings.default.average_list_length] are defined outside
      strategies.py; the constructors below are parameterised by them.
      The bound counts templates: it is a non-negative int or
      [float('inf')]. *)
Variable template_upper_bound : SearchStrategy -> num.
Variable average_list_length : num.

Definition lists (elements : object)
      (min_size average_size max_size : option num) : result SearchStrategy :=
    check_valid_sizes min_size average_size max_size ;;;
    let min_size := match min_size with None => NInt 0 | Some n => n end in
    average_size <-
      match average_size with
      | Some a => Ok a
      | None =>
          match max_size with
          | None => Ok average_list_length
          | Some mx =>
              total <- num_add min_size mx ;;
              num_mul total (NFloat PyFloat.half)
          end
      end ;;
    if is_None elements
       || match max_size with Some mx => num_leb mx (NInt 0) | None => false end
    then
      if match max_size with None => true | Some mx => num_gtb mx (NInt 0) end
      then Raise InvalidArgument
      else Ok (ListStrategy [] None None None)
    else
      elements <- check_strategy elements ;;
      if num_eqb (template_upper_bound elements) (NInt 1) then
        length_strat <-
          match max_size with
          | None =>
              spread <- num_sub average_size min_size ;;
              Ok (IntegersFromStrategy min_size (Some spread))
          | Some mx => integers (Some min_size) (Some mx)
          end ;;
        Ok (SingleElementListStrategy elements length_strat)
      else
        new_ListStrategy [elements] average_size min_size max_size.

Definition sets (elements : object)
      (min_size average_size max_size : option num) : result SearchStrategy :=
    check_valid_sizes min_size average_size max_size ;;;
    if match max_size with Some mx => num_eqb mx (NInt 0) | None => false end
    then Ok (SetStrategy [] None None)
    else
      elements <- check_strategy elements ;;
      if match min_size with
         | Some m => num_ltb (template_upper_bound elements) m
         | None => false
         end
      then
        (* the message is formatted before the exception is raised: its
           first field is ['%d' % min_size]; its last field is the bound,
           a count that is below [min_size] here and hence finite *)
        match min_size with
        | Some m => format_d m
        | None => Ok tt
        end ;;;
        Raise InvalidArgument
      else
        let res :=
          SetStrategy [elements]
            (Some (num_or average_size average_list_length)) max_size in
        match min_size with
        | Some m => Ok (Strategy.filter res (sets_lambda m))
        | None => Ok res
        end.

  (** [dictionaries] with [dict_class = dict]. *)
Definition dictionaries (keys values : object)
      (min_size average_size max_size : option num) : result SearchStrategy :=
    check_valid_sizes min_size average_size max_size ;;;
    if match max_size with Some mx => num_eqb mx (NInt 0) | None => false end
    then fixed_dictionaries []
    else
      keys <- check_strategy keys ;;
      values <- check_strategy values ;;
      average_size <-
        match min_size with
        | Some m =>
            base_average <- num_mul m (NInt 2) ;;
            Ok (Some (py_max (num_or average_size (NInt 0)) base_average))
        | None => Ok average_size
        end ;;
      pairs <- tuples [OStrategy keys; OStrategy values] ;;
      base <- lists (OStrategy pairs) min_size average_size None ;;
      Ok (Strategy.map base (build_dict_closure min_size max_size)).

End Collections.

(** ** Vocabulary of the properties *)

(** A size is invalid when it is negative or NaN. *)
Definition invalid_size (size : option num) : bool :=
  match size with
  | Some v =>
      num_ltb v (NInt 0)
      || match v with NFloat f => PyFloat.is_nan f | NInt _ => false end
  | None => false
  end.

(** An end point that [float] accepts: a float, or an int inside the
    finite range of binary64. *)
Definition fits_float (z : Z) : bool :=
  match PyFloat.of_int z with Ok _ => true | Raise _ => false end.

Definition float_end_point (n : num) : bool :=
  match n with
  | NFloat _ => true
  | NInt z => fits_float z
  end.

(** An optional float end point that is NaN. *)
Definition nan_end_point (e : option spec_float) : bool :=
  match e with
  | Some f => PyFloat.is_nan f
  | None => false
  end.

(** The sizes whose averages [lists] computes in floating point stay in
    range. *)
Definition or_0 (min_size : option Z) : Z :=
  match min_size with Some m => m | None => 0 end.

Definition sizes_fit_float (min_size max_size : option Z) : bool :=
  fits_float (or_0 min_size)
  && match max_size with
     | Some M => fits_float (or_0 min_size + M)
     | None => true
     end.


(** The average size [dictionaries] hands to [lists]: at least twice an
    integer [min_size]. *)
Definition raised_average (min_size : option Z) (average_size : option num)
    : option num :=
  match min_size with
  | Some m => Some (py_max (num_or average_size (NInt 0)) (NInt (m * 2)))
  | None => average_size
  end.

(** The average length [lists] settles on for integer sizes: the
    [average_size] given, else the default setting when there is no
    [max_size], else [(min_size + max_size) * 0.5]. *)
Definition settled_average (average_list_length : num)
    (min_size : option Z) (average_size : option num) (max_size : option Z)
    : result num :=
  match average_size with
  | Some a => Ok a
  | None =>
      match max_size with
      | None => Ok average_list_length
      | Some M => num_mul (NInt (or_0 min_size + M)) (NFloat PyFloat.half)
      end
  end.

(** The average length of the list of pairs behind [dictionaries]: the
    raised average, or the default setting when neither [min_size] nor
    [average_size] is given. *)
Definition pairs_average (average_list_length : num)
    (min_size : option Z) (average_size : option num) : num :=
  match raised_average min_size average_size with
  | Some a => a
  | None => average_list_length
  end.

(** The list value holding the pairs [(k, v)] as 2-tuples. *)
Definition pairs_value (pairs : list (value * value)) : value :=
  VList (map (fun kv => VTuple [fst kv; snd kv]) pairs).

(** ** Further constructors and vocabulary *)

(** The strategy classes that wrap one strategy built by the constructors
    above; strategies.py never nests them inside another strategy. *)
Inductive WrappingStrategy : Type :=
| BinaryStringStrategy (list_strategy : SearchStrategy)
| FrozenSetStrategy (set_strategy : SearchStrategy).

Section Wrappers.

Variable template_upper_bound : SearchStrategy -> num.
Variable average_list_length : num.

Definition frozensets (elements : object)
    (min_size average_size max_size : option num) : result WrappingStrategy :=
  set_strategy <-
    sets template_upper_bound average_list_length elements
         min_size average_size max_size ;;
  Ok (FrozenSetStrategy set_strategy).

Definition binary (min_size average_size max_size : option num)
    : result WrappingStrategy :=
  bytes <- integers (Some (NInt 0)) (Some (NInt 255)) ;;
  list_strategy <-
    lists template_upper_bound average_list_length (OStrategy bytes)
          min_size average_size max_size ;;
  Ok (BinaryStringStrategy list_strategy).

End Wrappers.

(** [isinstance(arg, SearchStrategy)]. *)
Definition is_strategy (arg : object) : bool := isinstance arg SearchStrategy_type.

(** A number that is not an infinity or a NaN. *)
Definition finite_num (n : num) : bool :=
  match n with
  | NInt _ => true
  | NFloat f => PyFloat.is_finite f
  end.


(** No key of the mapping compares equal to a later key. *)
Fixpoint distinct_keys (d : dict) : Prop :=
  match d with
  | [] => True
  | (k, _) :: rest =>
      Forall (fun kv => py_eqb k (fst kv) = false) rest /\ distinct_keys rest
  end.

(** [max_size == 0], false for an absent [max_size]. *)
Definition is_zero (max_size : option num) : bool :=
  match max_size with
  | Some mx => num_eqb mx (NInt 0)
  | None => false
  end.

(** ** Numbers *)

Lemma of_int_not_inf z f : PyFloat.of_int z = Ok f -> PyFloat.is_inf f = false.
Proof.
  unfold PyFloat.of_int.
  destruct (binary_normalize _ _ _ _ _); intros H; inversion H; reflexivity.
Qed.

Lemma math_isinf_int z : math_isinf (NInt z) <> Ok true.
Proof.
  unfold math_isinf; simpl.
  destruct (PyFloat.of_int z) eqn:E; simpl; [|discriminate].
  rewrite (of_int_not_inf _ _ E). discriminate.
Qed.

Lemma num_eqb_int x y : num_eqb (NInt x) (NInt y) = (x =? y).
Proof.
  unfold num_eqb; simpl.
  destruct (Z.compare_spec x y); destruct (Z.eqb_spec x y); congruence || lia.
Qed.

Lemma num_ltb_int x y : num_ltb (NInt x) (NInt y) = (x <? y).
Proof. unfold num_ltb, Z.ltb; simpl. destruct (x ?= y); reflexivity. Qed.

Lemma num_gtb_int x y : num_gtb (NInt x) (NInt y) = (y <? x).
Proof.
  unfold num_gtb, Z.ltb; simpl. rewrite (Z.compare_antisym x y).
  destruct (x ?= y); reflexivity.
Qed.

Lemma num_leb_int x y : num_leb (NInt x) (NInt y) = (x <=? y).
Proof. unfold num_leb, Z.leb; simpl. destruct (x ?= y); reflexivity. Qed.

Lemma num_geb_int x y : num_geb (NInt x) (NInt y) = (y <=? x).
Proof.
  unfold num_geb, Z.leb; simpl. rewrite (Z.compare_antisym x y).
  destruct (x ?= y); reflexivity.
Qed.

(** [b ? a] is the opposite of [a ? b], whatever the kinds of number. *)
Lemma SFcompare_antisym f g :
  SFcompare g f = option_map CompOpp (SFcompare f g).
Proof.
  destruct f as [s1|s1| |s1 m1 e1], g as [s2|s2| |s2 m2 e2]; simpl;
    try reflexivity;
    try (destruct s1; reflexivity);
    try (destruct s2; reflexivity);
    try (destruct s1, s2; reflexivity).
  destruct s1, s2; simpl; try reflexivity;
    rewrite (Z.compare_antisym e1 e2);
    destruct (e1 ?= e2); simpl; try reflexivity;
    rewrite (Pos.compare_cont_antisym m1 m2 Eq); reflexivity.
Qed.

Lemma num_compare_antisym a b :
  num_compare b a = option_map CompOpp (num_compare a b).
Proof.
  destruct a as [x|f], b as [y|g]; simpl.
  - now rewrite (Z.compare_antisym x y).
  - reflexivity.
  - destruct (PyFloat.int_compare y f) as [c|]; simpl;
      [now rewrite CompOpp_involutive | reflexivity].
  - apply SFcompare_antisym.
Qed.

Lemma num_gtb_ltb a b : num_gtb a b = num_ltb b a.
Proof.
  unfold num_gtb, num_ltb. rewrite (num_compare_antisym a b).
  destruct (num_compare a b) as [[]|]; reflexivity.
Qed.


Lemma num_ltb_not_eqb a b : num_ltb a b = true -> num_eqb b a = false.
Proof.
  unfold num_ltb, num_eqb. rewrite (num_compare_antisym a b).
  destruct (num_compare a b) as [[]|]; simpl; congruence.
Qed.

(** Nothing is below minus infinity, and plus infinity is below nothing. *)
Lemma num_ltb_neg_inf a : num_ltb a (NFloat PyFloat.neg_inf) = false.
Proof.
  destruct a as [x|[s|s| |s m e]]; try reflexivity; destruct s; reflexivity.
Qed.

Lemma num_ltb_inf a : num_ltb (NFloat PyFloat.inf) a = false.
Proof.
  destruct a as [x|[s|s| |s m e]]; try reflexivity; destruct s; reflexivity.
Qed.

Lemma num_eqb_neg_inf a :
  num_eqb a (NFloat PyFloat.neg_inf) = true -> a = NFloat PyFloat.neg_inf.
Proof.
  destruct a as [x|[s|s| |s m e]]; try discriminate;
    destruct s; try discriminate; reflexivity.
Qed.

Lemma num_eqb_inf a :
  num_eqb a (NFloat PyFloat.inf) = true -> a = NFloat PyFloat.inf.
Proof.
  destruct a as [x|[s|s| |s m e]]; try discriminate;
    destruct s; try discriminate; reflexivity.
Qed.

(** ** Validation of sizes *)

Lemma check_valid_size_spec size :
  check_valid_size size =
  if invalid_size size then Raise InvalidArgument else Ok tt.
Proof.
  destruct size as [[z|f]|]; simpl; try reflexivity.
  - destruct (num_ltb (NInt z) (NInt 0)); reflexivity.
  - destruct (num_ltb (NFloat f) (NInt 0)); simpl; [reflexivity|].
    destruct (PyFloat.is_nan f); reflexivity.
Qed.

Lemma check_valid_sizes_spec min_size average_size max_size :
  check_valid_sizes min_size average_size max_size =
  if invalid_size min_size || invalid_size max_size || invalid_size average_size
     || below max_size min_size || below max_size average_size
     || below average_size min_size
  then Raise InvalidArgument else Ok tt.
Proof.
  unfold check_valid_sizes. rewrite !check_valid_size_spec.
  destruct (invalid_size min_size), (invalid_size max_size),
    (invalid_size average_size), (below max_size min_size),
    (below max_size average_size), (below average_size min_size);
    reflexivity.
Qed.

(** [check_valid_sizes] raises nothing but InvalidArgument. *)
Lemma check_valid_sizes_cases min_size average_size max_size :
  check_valid_sizes min_size average_size max_size = Ok tt \/
  check_valid_sizes min_size average_size max_size = Raise InvalidArgument.
Proof.
  rewrite check_valid_sizes_spec.
  destruct (_ || _); [right | left]; reflexivity.
Qed.

Lemma check_valid_sizes_Ok min_size average_size max_size :
  check_valid_sizes min_size average_size max_size = Ok tt ->
  invalid_size min_size = false /\ invalid_size max_size = false /\
  invalid_size average_size = false /\ below max_size min_size = false /\
  below max_size average_size = false /\ below average_size min_size = false.
Proof.
  rewrite check_valid_sizes_spec.
  destruct (invalid_size min_size), (invalid_size max_size),
    (invalid_size average_size), (below max_size min_size),
    (below max_size average_size), (below average_size min_size);
    simpl; intros H; try discriminate; repeat split; reflexivity.
Qed.

(** ** [one_of] and [tuples] *)

Lemma check_strategies_strategies ss :
  check_strategies (map OStrategy ss) = Ok ss.
Proof.
  induction ss as [|s ss IH]; simpl; [reflexivity|].
  unfold check_strategy; simpl. now rewrite IH.
Qed.

(** ** The recursion of [floats] *)

(** A call whose lower end point is the int 0 makes no recursive call:
    the assertion [min_value < 0] guards them. *)
Lemma floats_body_zero_min self1 self2 max_value :
  floats_body self1 (Some (NInt 0)) max_value =
  floats_body self2 (Some (NInt 0)) max_value.
Proof.
  unfold floats_body.
  change (check_end_point (Some (NInt 0))) with (@Ok unit tt).
  change (num_eqb (NInt 0) (NFloat PyFloat.neg_inf)) with false.
  cbn [bind].
  destruct (check_end_point max_value) as [[]|]; cbn [bind]; [|reflexivity].
  destruct max_value as [mx|]; [|reflexivity].
  destruct (num_eqb mx (NFloat PyFloat.inf)); [reflexivity|].
  destruct (num_ltb mx (NInt 0)); [reflexivity|].
  destruct (num_eqb (NInt 0) mx); [reflexivity|].
  destruct (num_sub mx (NInt 0)) as [w|]; cbn [bind]; [|reflexivity].
  destruct (math_isinf w) as [[]|]; reflexivity.
Qed.

Lemma floats_body_zero_max self1 self2 min_value :
  floats_body self1 min_value (Some (NInt 0)) =
  floats_body self2 min_value (Some (NInt 0)).
Proof.
  unfold floats_body.
  change (check_end_point (Some (NInt 0))) with (@Ok unit tt).
  change (num_eqb (NInt 0) (NFloat PyFloat.inf)) with false.
  destruct (check_end_point min_value) as [[]|]; cbn [bind]; [|reflexivity].
  destruct min_value as [mn|]; [|reflexivity].
  destruct (num_eqb mn (NFloat PyFloat.neg_inf)); [reflexivity|].
  destruct (num_ltb (NInt 0) mn); [reflexivity|].
  destruct (num_eqb mn (NInt 0)); [reflexivity|].
  destruct (num_sub (NInt 0) mn) as [w|]; cbn [bind]; [|reflexivity].
  destruct (math_isinf w) as [[]|]; cbn [bind]; try reflexivity.
  change (num_gtb (NInt 0) (NInt 0)) with false.
  now rewrite andb_false_r.
Qed.

(** The body's result depends on [self] only through the two half-range
    calls. *)
Lemma floats_body_ext self1 self2 min_value max_value :
  (forall mx, self1 (Some (NInt 0)) mx = self2 (Some (NInt 0)) mx) ->
  (forall mn, self1 mn (Some (NInt 0)) = self2 mn (Some (NInt 0))) ->
  floats_body self1 min_value max_value = floats_body self2 min_value max_value.
Proof.
  intros H0 H1. unfold floats_body.
  destruct (check_end_point min_value) as [[]|]; cbn [bind]; [|reflexivity].
  destruct (check_end_point max_value) as [[]|]; cbn [bind]; [|reflexivity].
  destruct min_value as [mn|], max_value as [mx|]; try reflexivity.
  destruct (num_eqb mn (NFloat PyFloat.neg_inf)),
    (num_eqb mx (NFloat PyFloat.inf)); try reflexivity.
  destruct (num_ltb mx mn); [reflexivity|].
  destruct (num_eqb mn mx); [reflexivity|].
  destruct (num_sub mx mn) as [w|]; cbn [bind]; [|reflexivity].
  destruct (math_isinf w) as [[]|]; cbn [bind]; try reflexivity.
  destruct (_ && _); [|reflexivity].
  now rewrite H0, H1.
Qed.

(** Depth two is enough: any larger bound on the call depth gives the same
    result, so [floats] is the function its body defines. *)
Lemma floats_fuel_stable n min_value max_value :
  floats_fuel (2 + n) min_value max_value = floats min_value max_value.
Proof.
  unfold floats. simpl. apply floats_body_ext; intros.
  - destruct n; simpl; apply floats_body_zero_min.
  - destruct n; simpl; apply floats_body_zero_max.
Qed.

Lemma floats_unfold min_value max_value :
  floats min_value max_value = floats_body floats min_value max_value.
Proof. symmetry. exact (floats_fuel_stable 1 min_value max_value). Qed.

Lemma to_float_exn n e : to_float n = Raise e -> e = OverflowError.
Proof.
  destruct n as [z|f]; simpl; [|discriminate].
  unfold PyFloat.of_int.
  destruct (binary_normalize _ _ _ _ _); intros H; inversion H; reflexivity.
Qed.

Lemma num_arith_exn fz ff a b e :
  num_arith fz ff a b = Raise e -> e = OverflowError.
Proof.
  unfold num_arith.
  destruct a as [x|f], b as [y|g]; try discriminate;
    destruct (to_float _) eqn:E1; cbn [bind];
    try (intros H; inversion H; subst; exact (to_float_exn _ _ E1));
    try discriminate.
  destruct (to_float (NInt y)) eqn:E2; cbn [bind]; try discriminate.
  intros H; inversion H; subst; exact (to_float_exn _ _ E2).
Qed.

Lemma check_end_point_exn o e :
  check_end_point o = Raise e -> e = InvalidArgument \/ e = OverflowError.
Proof.
  destruct o as [n|]; simpl; [|discriminate].
  unfold math_isnan. destruct (to_float n) eqn:E; cbn [bind].
  - destruct (PyFloat.is_nan a); intros H; inversion H; auto.
  - intros H; inversion H; subst. right. exact (to_float_exn _ _ E).
Qed.

(** The body of [floats] raises RecursionError only if a recursive call
    does. *)
Lemma floats_body_no_recursion_error self min_value max_value :
  (forall a b, self a b <> Raise RecursionError) ->
  floats_body self min_value max_value <> Raise RecursionError.
Proof.
  intros Hself. unfold floats_body.
  destruct (check_end_point min_value) as [[]|e1] eqn:E1; cbn [bind];
    [|destruct (check_end_point_exn _ _ E1); subst; discriminate].
  destruct (check_end_point max_value) as [[]|e2] eqn:E2; cbn [bind];
    [|destruct (check_end_point_exn _ _ E2); subst; discriminate].
  destruct min_value as [mn|], max_value as [mx|]; try discriminate.
  - destruct (num_eqb mn (NFloat PyFloat.neg_inf)),
      (num_eqb mx (NFloat PyFloat.inf)); try discriminate.
    destruct (num_ltb mx mn); [discriminate|].
    destruct (num_eqb mn mx); [discriminate|].
    destruct (num_sub mx mn) as [w|e3] eqn:E3; cbn [bind];
      [|rewrite (num_arith_exn _ _ _ _ _ E3); discriminate].
    unfold math_isinf.
    destruct (to_float w) as [f|e4] eqn:E4; cbn [bind];
      [|rewrite (to_float_exn _ _ E4); discriminate].
    destruct (PyFloat.is_inf f); [|discriminate].
    destruct (_ && _); [|discriminate].
    destruct (self (Some (NInt 0)) (Some mx)) as [u|e5] eqn:E5; cbn [bind];
      [|intros H; inversion H; subst; exact (Hself _ _ E5)].
    destruct (self (Some mn) (Some (NInt 0))) as [l|e6] eqn:E6; cbn [bind];
      [discriminate|intros H; inversion H; subst; exact (Hself _ _ E6)].
  - destruct (num_eqb mn (NFloat PyFloat.neg_inf)); discriminate.
  - destruct (num_eqb mx (NFloat PyFloat.inf)); discriminate.
Qed.

(** [floats] never runs out of call depth. *)
Lemma floats_no_recursion_error min_value max_value :
  floats min_value max_value <> Raise RecursionError.
Proof.
  unfold floats. cbn [floats_fuel].
  rewrite (floats_body_ext _
             (floats_body (fun _ _ => Ok RandomGeometricIntStrategy))).
  - apply floats_body_no_recursion_error. intros a b.
    apply floats_body_no_recursion_error. discriminate.
  - intros. apply floats_body_zero_min.
  - intros. apply floats_body_zero_max.
Qed.

(** ** [integers] *)

Lemma integers_conflicting_bounds lo hi :
  num_ltb hi lo = true -> integers (Some lo) (Some hi) = Raise InvalidArgument.
Proof.
  intros H. unfold integers.
  destruct lo as [x|f]; [|reflexivity].
  change (check_type integer_types (OValue (VInt x))) with (@Ok unit tt).
  cbn [bind].
  rewrite (num_ltb_not_eqb _ _ H), num_gtb_ltb, H. reflexivity.
Qed.

(** C3: for every integer [v], [integers(min_value=v, max_value=v)] returns
    the constant strategy [just(v)], and the only thing that strategy
    reifies to is the value [v]. *)
Theorem integers_equal_bounds_is_just (v : Z) :
  exists s,
    integers (Some (NInt v)) (Some (NInt v)) = Ok s /\
    s = just (VInt v) /\
    forall r, reifies s r <-> r = Ok (VInt v).
Proof.
  exists (just (VInt v)). split; [|split; [reflexivity|]].
  - unfold integers.
    change (check_type integer_types (OValue (VInt v))) with (@Ok unit tt).
    cbn [bind]. now rewrite num_eqb_int, Z.eqb_refl.
  - intros r; split.
    + intros H. inversion H. reflexivity.
    + intros ->. constructor.
Qed.

(** C6: [integers()] with no bounds is exactly the [one_of] union of the
    geometric-decay strategy and the wide-range strategy, in that order. *)
Theorem integers_unbounded_is_one_of :
  integers None None =
    one_of (OStrategy RandomGeometricIntStrategy)
           [OStrategy WideRangeIntStrategy] /\
  integers None None =
    Ok (OneOfStrategy [RandomGeometricIntStrategy; WideRangeIntStrategy]).
Proof. split; reflexivity. Qed.

(** C9: [one_of] on a single strategy returns that strategy itself, and on
    two or more strategies builds the union strategy over all of them, in
    order. *)
Theorem one_of_single_identity_many_union :
  (forall s, one_of (OStrategy s) [] = Ok s) /\
  (forall s t rest,
      one_of (OStrategy s) (map OStrategy (t :: rest)) =
      Ok (OneOfStrategy (s :: t :: rest))).
Proof.
  split; [reflexivity|].
  intros s t rest. unfold one_of. cbn [map].
  change (OStrategy s :: OStrategy t :: map OStrategy rest)
    with (map OStrategy (s :: t :: rest)).
  now rewrite check_strategies_strategies.
Qed.

(** ** [floats] *)

Lemma float_end_point_to_float n :
  float_end_point n = true -> exists f, to_float n = Ok f.
Proof.
  destruct n as [z|f]; simpl; [|eauto].
  unfold fits_float. destruct (PyFloat.of_int z); [eauto|discriminate].
Qed.

Lemma floats_conflicting_bounds lo hi :
  float_end_point lo = true -> float_end_point hi = true ->
  num_ltb hi lo = true ->
  floats (Some lo) (Some hi) = Raise InvalidArgument.
Proof.
  intros Hlo Hhi H.
  destruct (float_end_point_to_float _ Hlo) as [fl El].
  destruct (float_end_point_to_float _ Hhi) as [fh Eh].
  unfold floats. cbn [floats_fuel]. unfold floats_body.
  unfold check_end_point, math_isnan. rewrite El, Eh. cbn [bind].
  destruct (PyFloat.is_nan fl); cbn [bind]; [reflexivity|].
  destruct (PyFloat.is_nan fh); cbn [bind]; [reflexivity|].
  destruct (num_eqb lo (NFloat PyFloat.neg_inf)) eqn:E1.
  { apply num_eqb_neg_inf in E1; subst lo.
    rewrite num_ltb_neg_inf in H. discriminate. }
  destruct (num_eqb hi (NFloat PyFloat.inf)) eqn:E2.
  { apply num_eqb_inf in E2; subst hi.
    rewrite num_ltb_inf in H. discriminate. }
  now rewrite H.
Qed.

(** C4: whenever either float end point is NaN, [floats] raises
    InvalidArgument; an absent end point is [None]. *)
Theorem floats_nan_end_point_raises (a b : option spec_float) :
  nan_end_point a || nan_end_point b = true ->
  floats (option_map NFloat a) (option_map NFloat b) = Raise InvalidArgument.
Proof.
  intros H.
  destruct a as [[]|], b as [[]|]; simpl in H; try discriminate; reflexivity.
Qed.

Lemma floats_nan_end_point_raises_witness :
  floats (Some (NFloat PyFloat.nan)) (Some (NFloat PyFloat.half)) =
  Raise InvalidArgument.
Proof.
  apply (floats_nan_end_point_raises (Some PyFloat.nan) (Some PyFloat.half)).
  reflexivity.
Defined.

(** The sign of a finite nonzero float decides its comparison with 0. *)
Lemma pow2_mul_pos (m : positive) (e : Z) : 0 <= e -> 0 < Z.pos m * 2 ^ e.
Proof.
  intros He. apply Z.mul_pos_pos; [lia|]. now apply Z.pow_pos_nonneg.
Qed.

Lemma int_compare_zero_finite s m e :
  PyFloat.int_compare 0 (S754_finite s m e) = Some (if s then Gt else Lt).
Proof.
  unfold PyFloat.int_compare. f_equal.
  destruct (0 <=? e) eqn:He.
  - apply Z.leb_le in He. pose proof (pow2_mul_pos m e He) as P.
    destruct s; cbn [cond_Zopp].
    + apply Z.compare_gt_iff. change (- Z.pos m) with (- (Z.pos m)).
      rewrite Z.mul_opp_l. lia.
    + apply Z.compare_lt_iff. exact P.
  - destruct s; reflexivity.
Qed.

Lemma num_ltb_finite_zero s m e :
  num_ltb (NFloat (S754_finite s m e)) (NInt 0) = s.
Proof.
  unfold num_ltb, num_compare. rewrite int_compare_zero_finite.
  destruct s; reflexivity.
Qed.

Lemma num_ltb_zero_finite s m e :
  num_ltb (NInt 0) (NFloat (S754_finite s m e)) = negb s.
Proof.
  unfold num_ltb, num_compare. rewrite int_compare_zero_finite.
  destruct s; reflexivity.
Qed.

Lemma num_eqb_zero_finite s m e :
  num_eqb (NInt 0) (NFloat (S754_finite s m e)) = false /\
  num_eqb (NFloat (S754_finite s m e)) (NInt 0) = false.
Proof.
  unfold num_eqb, num_compare. rewrite int_compare_zero_finite.
  destruct s; split; reflexivity.
Qed.

(** C5: for finite floats [a < 0 < b] whose difference [b - a] overflows to
    infinity, [floats(a, b)] is [floats(0, b) | floats(a, 0)], and the two
    halves are the fixed bounded ranges from 0 to [b] and from [a] to 0. *)
Theorem floats_infinite_width_splits_at_zero (a b : spec_float) :
  PyFloat.is_finite a = true -> PyFloat.is_finite b = true ->
  num_ltb (NFloat a) (NInt 0) = true -> num_ltb (NInt 0) (NFloat b) = true ->
  PyFloat.is_inf (PyFloat.sub b a) = true ->
  exists upper lower,
    floats (Some (NInt 0)) (Some (NFloat b)) = Ok upper /\
    floats (Some (NFloat a)) (Some (NInt 0)) = Ok lower /\
    floats (Some (NFloat a)) (Some (NFloat b)) = Ok (Strategy.or_ upper lower) /\
    upper = FixedBoundedFloatStrategy (NInt 0) (NFloat b) /\
    lower = FixedBoundedFloatStrategy (NFloat a) (NInt 0).
Proof.
  intros Fa Fb La Lb Hinf.
  destruct a as [sa|sa| |sa ma ea]; try discriminate.
  destruct b as [sb|sb| |sb mb eb]; try discriminate.
  rewrite num_ltb_finite_zero in La. rewrite num_ltb_zero_finite in Lb.
  subst sa. destruct sb; [discriminate|].
  assert (Hu : floats (Some (NInt 0)) (Some (NFloat (S754_finite false mb eb)))
               = Ok (FixedBoundedFloatStrategy (NInt 0)
                       (NFloat (S754_finite false mb eb)))).
  { unfold floats. cbn [floats_fuel]. unfold floats_body.
    change (check_end_point (Some (NInt 0))) with (@Ok unit tt).
    cbn [bind check_end_point math_isnan to_float PyFloat.is_nan].
    change (num_eqb (NInt 0) (NFloat PyFloat.neg_inf)) with false.
    change (num_eqb (NFloat (S754_finite false mb eb)) (NFloat PyFloat.inf))
      with false.
    cbv iota.
    rewrite num_ltb_finite_zero.
    rewrite (proj1 (num_eqb_zero_finite false mb eb)).
    reflexivity. }
  assert (Hl : floats (Some (NFloat (S754_finite true ma ea))) (Some (NInt 0))
               = Ok (FixedBoundedFloatStrategy
                       (NFloat (S754_finite true ma ea)) (NInt 0))).
  { unfold floats. cbn [floats_fuel]. unfold floats_body.
    change (check_end_point (Some (NInt 0))) with (@Ok unit tt).
    cbn [bind check_end_point math_isnan to_float PyFloat.is_nan].
    change (num_eqb (NInt 0) (NFloat PyFloat.inf)) with false.
    change (num_eqb (NFloat (S754_finite true ma ea)) (NFloat PyFloat.neg_inf))
      with false.
    cbv iota.
    rewrite num_ltb_zero_finite.
    rewrite (proj2 (num_eqb_zero_finite true ma ea)).
    reflexivity. }
  eexists _, _. split; [exact Hu|]. split; [exact Hl|].
  split; [|split; reflexivity].
  rewrite floats_unfold. unfold floats_body at 1.
  cbn [bind check_end_point math_isnan to_float PyFloat.is_nan].
  change (num_eqb (NFloat (S754_finite true ma ea)) (NFloat PyFloat.neg_inf))
    with false.
  change (num_eqb (NFloat (S754_finite false mb eb)) (NFloat PyFloat.inf))
    with false.
  cbv iota.
  change (num_ltb (NFloat (S754_finite false mb eb))
                  (NFloat (S754_finite true ma ea))) with false.
  change (num_eqb (NFloat (S754_finite true ma ea))
                  (NFloat (S754_finite false mb eb))) with false.
  cbv iota.
  change (num_sub (NFloat (S754_finite false mb eb))
                  (NFloat (S754_finite true ma ea)))
    with (Ok (NFloat (PyFloat.sub (S754_finite false mb eb)
                                  (S754_finite true ma ea)))).
  cbn [bind]. unfold math_isinf. cbn [to_float bind].
  rewrite Hinf.
  rewrite num_ltb_finite_zero, num_gtb_ltb, num_ltb_zero_finite.
  cbn [andb negb]. rewrite Hu, Hl. reflexivity.
Qed.

Lemma floats_infinite_width_splits_at_zero_witness :
  exists upper lower,
    floats (Some (NInt 0)) (Some (NFloat PyFloat.max_float)) = Ok upper /\
    floats (Some (NFloat (SFopp PyFloat.max_float))) (Some (NInt 0)) = Ok lower /\
    floats (Some (NFloat (SFopp PyFloat.max_float)))
           (Some (NFloat PyFloat.max_float)) = Ok (Strategy.or_ upper lower) /\
    upper = FixedBoundedFloatStrategy (NInt 0) (NFloat PyFloat.max_float) /\
    lower = FixedBoundedFloatStrategy (NFloat (SFopp PyFloat.max_float)) (NInt 0).
Proof.
  apply (floats_infinite_width_splits_at_zero
           (SFopp PyFloat.max_float) PyFloat.max_float);
    vm_compute; reflexivity.
Defined.

(** ** [fractions] *)

Lemma reifies_unbounded_integers r :
  reifies (OneOfStrategy [RandomGeometricIntStrategy; WideRangeIntStrategy]) r ->
  exists z, r = Ok (VInt z).
Proof.
  intros H. inversion H as [| | | | |ss s r' Hin Hs| | | | | | | | | | |]; subst.
  destruct Hin as [<-|[<-|[]]]; inversion Hs; eauto.
Qed.

Lemma reifies_integers_from lo avg r :
  reifies (IntegersFromStrategy (NInt lo) avg) r ->
  exists z, r = Ok (VInt z) /\ lo <= z.
Proof.
  intros H. inversion H as [| | |lo' avg' z Hle| | | | | | | | | | | | |]; subst.
  rewrite num_leb_int in Hle. apply Z.leb_le in Hle. eauto.
Qed.

Lemma normalize_positive_denominator n d :
  0 < d -> exists n' d', normalize n d = VFraction n' d' /\ 1 <= d'.
Proof.
  intros Hd. unfold normalize.
  destruct (d <? 0) eqn:E; [apply Z.ltb_lt in E; lia|].
  eexists _, _. split; [reflexivity|].
  pose proof (Z.gcd_nonneg n d) as Hg.
  assert (Hg0 : Z.gcd n d <> 0).
  { intros H0. apply Z.gcd_eq_0_r in H0. lia. }
  destruct (Z.gcd_divide_r n d) as [c Hc].
  assert (Hc1 : 1 <= c) by nia.
  rewrite Hc at 1. rewrite Z.div_mul by exact Hg0. exact Hc1.
Qed.

(** C10: [fractions()] maps [Fraction] over pairs whose second component
    is drawn from [integers(min_value=1)]; so every outcome of reifying it
    is [Fraction(n, d)] for a drawn denominator [d >= 1], it is a fraction
    with denominator at least 1, and it is never ZeroDivisionError. *)
Theorem fractions_denominator_at_least_one :
  exists numerators denominators,
    integers None None = Ok numerators /\
    integers (Some (NInt 1)) None = Ok denominators /\
    fractions =
      Ok (MappedStrategy (TupleStrategy [numerators; denominators])
                         fractions_lambda) /\
    reifies (MappedStrategy (TupleStrategy [numerators; denominators])
                            fractions_lambda) (Ok (VFraction 1 2)) /\
    forall r,
      reifies (MappedStrategy (TupleStrategy [numerators; denominators])
                              fractions_lambda) r ->
      exists n d,
        reifies numerators (Ok (VInt n)) /\
        reifies denominators (Ok (VInt d)) /\
        1 <= d /\
        r = Fraction [VInt n; VInt d] /\
        r <> Raise ZeroDivisionError /\
        exists n' d', r = Ok (VFraction n' d') /\ 1 <= d'.
Proof.
  exists (OneOfStrategy [RandomGeometricIntStrategy; WideRangeIntStrategy]),
         (IntegersFromStrategy (NInt 1) None).
  split; [reflexivity|]. split; [reflexivity|]. split; [reflexivity|].
  split.
  { apply (reify_map _ fractions_lambda (VTuple [VInt 1; VInt 2])).
    apply reify_tuple. repeat constructor.
    apply reify_one_of with (s := RandomGeometricIntStrategy);
      [left; reflexivity | constructor]. }
  intros r H.
  inversion H as [| | | | | | | | | | | | |s f u Hu|s f e He| |]; subst.
  - inversion Hu as [| | | | | |ss vs HF| | | | | | | | | |]; subst.
    inversion HF as [|s1 v1 ss1 vs1 H1 HF1]; subst.
    inversion HF1 as [|s2 v2 ss2 vs2 H2 HF2]; subst.
    inversion HF2; subst.
    destruct (reifies_unbounded_integers _ H1) as [n En].
    destruct (reifies_integers_from _ _ _ H2) as [d [Ed Hd]].
    inversion En; inversion Ed; subst.
    exists n, d. split; [exact H1|]. split; [exact H2|]. split; [exact Hd|].
    assert (EF : apply fractions_lambda (VTuple [VInt n; VInt d])
                 = Fraction [VInt n; VInt d]) by reflexivity.
    rewrite EF. split; [reflexivity|].
    cbn [Fraction as_rational].
    destruct (d =? 0) eqn:E0; [apply Z.eqb_eq in E0; lia|].
    split; [discriminate|].
    destruct (normalize_positive_denominator (n * 1) (1 * d)) as [n' [d' [E Hd']]];
      [lia|].
    exists n', d'. now rewrite E.
  - exfalso.
    inversion He as [| | | | | | |ss s e' Hin Hs| | | | | | | | |]; subst.
    destruct Hin as [<-|[<-|[]]].
    + destruct (reifies_unbounded_integers _ Hs) as [z Ez]. discriminate.
    + destruct (reifies_integers_from _ _ _ Hs) as [z [Ez _]]. discriminate.
Qed.

(** ** Bounded integers *)

(** [integers(lo, hi)] with [lo <= hi] is a strategy all of whose values
    lie in [[lo, hi]]. *)
Lemma integers_within_bounds lo hi :
  lo <= hi ->
  exists s,
    integers (Some (NInt lo)) (Some (NInt hi)) = Ok s /\
    forall r, reifies s r -> exists n, r = Ok (VInt n) /\ lo <= n <= hi.
Proof.
  intros Hle. unfold integers.
  change (check_type integer_types (OValue (VInt lo))) with (@Ok unit tt).
  cbn [bind]. rewrite num_eqb_int, num_gtb_int.
  destruct (lo =? hi) eqn:E.
  - apply Z.eqb_eq in E. subst hi. eexists; split; [reflexivity|].
    intros r H. inversion H; subst. exists lo. split; [reflexivity|lia].
  - destruct (hi <? lo) eqn:E'; [apply Z.ltb_lt in E'; lia|].
    eexists; split; [reflexivity|].
    intros r H.
    inversion H as [| | | |lo' hi' z H1 H2| | | | | | | | | | | |]; subst.
    rewrite num_leb_int in H1, H2. apply Z.leb_le in H1, H2.
    exists z. split; [reflexivity|lia].
Qed.

Lemma num_sub_fits a z :
  fits_float z = true -> exists w, num_sub a (NInt z) = Ok w.
Proof.
  unfold fits_float. intros H.
  destruct a as [x|f]; [eexists; reflexivity|].
  unfold num_sub, num_arith. cbn [to_float bind].
  destruct (PyFloat.of_int z); [eexists; reflexivity|discriminate].
Qed.

Lemma num_mul_fits z h :
  fits_float z = true -> exists w, num_mul (NInt z) (NFloat h) = Ok w.
Proof.
  unfold fits_float. intros H.
  unfold num_mul, num_arith. cbn [to_float bind].
  destruct (PyFloat.of_int z); [eexists; reflexivity|discriminate].
Qed.

(** ** Valid sizes *)

Lemma valid_min_size_nonneg min_size average_size max_size :
  check_valid_sizes (option_map NInt min_size) average_size max_size = Ok tt ->
  0 <= or_0 min_size.
Proof.
  intros H. apply check_valid_sizes_Ok in H. destruct H as [H _].
  destruct min_size as [m|]; simpl in *; [|lia].
  rewrite orb_false_r, num_ltb_int in H. apply Z.ltb_ge in H. exact H.
Qed.

Lemma valid_min_size_le_max min_size average_size M :
  check_valid_sizes (option_map NInt min_size) average_size (Some (NInt M))
    = Ok tt ->
  0 <= M /\ or_0 min_size <= M.
Proof.
  intros H. pose proof (valid_min_size_nonneg _ _ _ H) as H0.
  apply check_valid_sizes_Ok in H. destruct H as (_ & Hmx & _ & Hb & _).
  simpl in Hmx. rewrite orb_false_r, num_ltb_int in Hmx.
  apply Z.ltb_ge in Hmx. split; [exact Hmx|].
  destruct min_size as [m|]; simpl in *; [|lia].
  rewrite num_ltb_int in Hb. apply Z.ltb_ge in Hb. exact Hb.
Qed.

Lemma min_size_or_0 min_size :
  match option_map NInt min_size with None => NInt 0 | Some n => n end
  = NInt (or_0 min_size).
Proof. destruct min_size; reflexivity. Qed.


Lemma num_or_valid average_size :
  invalid_size average_size = false ->
  invalid_size (Some (num_or average_size (NInt 0))) = false.
Proof.
  destruct average_size as [a|]; [|reflexivity].
  unfold num_or. destruct (num_truthy a); [trivial|reflexivity].
Qed.


(** For an int [m > 0] and a size [a]: if [2 * m > a] is false, then
    [a > 0]. *)
Lemma num_gtb_double_positive m a :
  0 < m ->
  invalid_size (Some a) = false ->
  num_gtb (NInt (m * 2)) a = false -> num_gtb a (NInt 0) = true.
Proof.
  intros Hm Hv. rewrite !num_gtb_ltb. unfold num_ltb.
  destruct a as [x|f]; cbn [num_compare].
  - destruct (Z.compare_spec x (m * 2)); try discriminate;
      destruct (Z.compare_spec 0 x); intros; try reflexivity; lia.
  - cbn [invalid_size] in Hv. apply orb_false_elim in Hv.
    destruct Hv as [_ Hnan].
    destruct f as [s|s| |s mf e]; try discriminate;
      cbn [PyFloat.int_compare option_map];
      try (destruct s; cbn [CompOpp]; intros; (reflexivity || discriminate)).
    + destruct (Z.compare_spec (m * 2) 0); cbn [CompOpp]; try discriminate;
        intros; lia.
    + set (v := cond_Zopp s (Z.pos mf)). destruct (0 <=? e) eqn:Ee.
      * apply Z.leb_le in Ee.
        pose proof (Z.pow_pos_nonneg 2 e ltac:(lia) Ee) as HP.
        destruct (Z.compare_spec (m * 2) (v * 2 ^ e)); cbn [CompOpp];
          try discriminate;
          destruct (Z.compare_spec 0 (v * 2 ^ e)); cbn [CompOpp]; intros;
          try reflexivity; nia.
      * apply Z.leb_gt in Ee.
        pose proof (Z.pow_pos_nonneg 2 (- e) ltac:(lia) ltac:(lia)) as HP.
        pose proof (Z.mul_pos_pos (m * 2) (2 ^ (- e)) ltac:(lia) HP) as HQ.
        destruct (Z.compare_spec (m * 2 * 2 ^ (- e)) v); cbn [CompOpp];
          try discriminate;
          destruct (Z.compare_spec (0 * 2 ^ (- e)) v); cbn [CompOpp]; intros;
          try reflexivity; lia.
Qed.

(** With [min_size >= 1] the average [dictionaries] hands to [lists] is
    positive, whatever [average_size] and the default are. *)
Lemma pairs_average_positive default m average_size max_size :
  check_valid_sizes (Some (NInt m)) average_size max_size = Ok tt ->
  0 < m ->
  num_gtb (pairs_average default (Some m) average_size) (NInt 0) = true.
Proof.
  intros H Hm.
  apply (check_valid_sizes_Ok (Some (NInt m))) in H.
  destruct H as (_ & _ & Havg & _).
  unfold pairs_average, raised_average, py_max.
  destruct (num_gtb (NInt (m * 2)) (num_or average_size (NInt 0))) eqn:E.
  - rewrite num_gtb_int. apply Z.ltb_lt. lia.
  - exact (num_gtb_double_positive _ _ Hm (num_or_valid _ Havg) E).
Qed.

(** ** [build_dict] *)


Lemma dict_update_len k v d :
  dict_len d <= dict_len (dict_update k v d) <= dict_len d + 1 /\
  1 <= dict_len (dict_update k v d).
Proof.
  unfold dict_len. induction d as [|[k' v'] d IH]; simpl; [lia|].
  destruct (py_eqb k' k); simpl length; lia.
Qed.






(** A fractional [max_size] passes [check_valid_sizes], and [build_dict]
    then stops only after the first insertion. *)
Example build_dict_fractional_max_size :
  check_valid_sizes None None (Some (NFloat PyFloat.half)) = Ok tt /\
  build_dict None (Some (NFloat PyFloat.half))
             (pairs_value [(VInt 1, VInt 2); (VInt 3, VInt 4)])
  = Ok (VDict [(VInt 1, VInt 2)]).
Proof. split; reflexivity. Qed.


(** ** [lists], [sets] and [dictionaries] *)

Section CollectionProperties.

Variable template_upper_bound : SearchStrategy -> num.
Variable average_list_length : num.

Local Abbreviation lists' := (lists template_upper_bound average_list_length).
Local Abbreviation sets' := (sets template_upper_bound average_list_length).
Local Abbreviation dictionaries' :=
  (dictionaries template_upper_bound average_list_length).

(** Where the constructors raise InvalidArgument on conflicting bounds or
    a bad size: [integers] always when [max_value < min_value]; [floats]
    when [max_value < min_value] and both end points are floats or ints
    that convert to float; [lists], [sets] and [dictionaries] when
    [max_size < min_size] or a size is negative or NaN.  The constructors
    take no source of randomness, so the error is the result of the call
    itself. *)
Lemma invalid_bounds_raise_InvalidArgument :
  (forall lo hi,
      num_ltb hi lo = true ->
      integers (Some lo) (Some hi) = Raise InvalidArgument) /\
  (forall lo hi,
      float_end_point lo = true -> float_end_point hi = true ->
      num_ltb hi lo = true ->
      floats (Some lo) (Some hi) = Raise InvalidArgument) /\
  (forall elements keys values min_size average_size max_size,
      below max_size min_size || invalid_size min_size
      || invalid_size average_size || invalid_size max_size = true ->
      lists' elements min_size average_size max_size = Raise InvalidArgument /\
      sets' elements min_size average_size max_size = Raise InvalidArgument /\
      dictionaries' keys values min_size average_size max_size
        = Raise InvalidArgument).
Proof.
  split; [exact integers_conflicting_bounds|].
  split; [exact floats_conflicting_bounds|].
  intros elements keys values mn avg mx H.
  assert (E : check_valid_sizes mn avg mx = Raise InvalidArgument).
  { rewrite check_valid_sizes_spec.
    destruct (below mx mn), (invalid_size mn), (invalid_size avg),
      (invalid_size mx); try discriminate;
      rewrite ?orb_true_r; reflexivity. }
  unfold lists, sets, dictionaries.
  rewrite E. repeat split; reflexivity.
Qed.

(** C2: [sets(e, min_size=k)] raises InvalidArgument whenever the
    distinct-template upper bound of [e] is strictly below [k]. *)
Theorem sets_min_size_above_upper_bound (e : SearchStrategy) (k : Z) :
  num_ltb (template_upper_bound e) (NInt k) = true ->
  sets' (OStrategy e) (Some (NInt k)) None None = Raise InvalidArgument.
Proof.
  intros H. unfold sets. rewrite check_valid_sizes_spec.
  cbn [invalid_size below orb].
  rewrite !orb_false_r.
  destruct (num_ltb (NInt k) (NInt 0)); [reflexivity|].
  cbn [bind check_strategy check_type isinstance]. now rewrite H.
Qed.








End CollectionProperties.

(** ** Instances on concrete inputs *)

(** C1: on the conflicting bounds [floats(10**400, 0)] the constructor
    raises OverflowError, not InvalidArgument.  The first thing [floats]
    does with an end point is [math.isnan], which converts it to float,
    and [10**400] is an int beyond the float range; the comparison
    [max_value < min_value] that raises InvalidArgument is never reached.
    [integers], given the same bounds, does raise InvalidArgument. *)
Theorem floats_conflicting_bounds_beyond_float_range :
  num_ltb (NInt 0) (NInt (10 ^ 400)) = true /\
  floats (Some (NInt (10 ^ 400))) (Some (NInt 0)) = Raise OverflowError /\
  integers (Some (NInt (10 ^ 400))) (Some (NInt 0)) = Raise InvalidArgument.
Proof. repeat split; vm_compute; reflexivity. Qed.

Lemma invalid_bounds_raise_InvalidArgument_witness :
  integers (Some (NInt 3)) (Some (NInt 1)) = Raise InvalidArgument /\
  floats (Some (NInt 5)) (Some (NInt 1)) = Raise InvalidArgument /\
  lists example_upper_bound example_average_list_length
        (OStrategy RandomGeometricIntStrategy)
        (Some (NInt 4)) None (Some (NInt 2)) = Raise InvalidArgument /\
  sets example_upper_bound example_average_list_length
       (OStrategy RandomGeometricIntStrategy)
       (Some (NInt (-1))) None None = Raise InvalidArgument /\
  dictionaries example_upper_bound example_average_list_length
       (OStrategy RandomGeometricIntStrategy) (OStrategy WideRangeIntStrategy)
       None (Some (NFloat PyFloat.nan)) None = Raise InvalidArgument.
Proof.
  destruct (invalid_bounds_raise_InvalidArgument
              example_upper_bound example_average_list_length)
    as [Hint [Hfloat Hsize]].
  split; [apply Hint; reflexivity|].
  split; [apply Hfloat; reflexivity|].
  split; [apply (Hsize (OStrategy RandomGeometricIntStrategy)
                       (OValue VNone) (OValue VNone)); reflexivity|].
  split; [apply (Hsize (OStrategy RandomGeometricIntStrategy)
                       (OValue VNone) (OValue VNone)); reflexivity|].
  apply (Hsize (OValue VNone)); reflexivity.
Defined.

Lemma sets_min_size_above_upper_bound_witness :
  sets example_upper_bound example_average_list_length
       (OStrategy (just (VInt 7))) (Some (NInt 2)) None None
  = Raise InvalidArgument.
Proof.
  apply (sets_min_size_above_upper_bound
           example_upper_bound example_average_list_length (just (VInt 7)) 2).
  reflexivity.
Defined.




(** The short-circuit is needed: [build_dict] tests the size only after an
    insertion, so with [max_size = 0] it would keep one key. *)
Example build_dict_max_size_zero :
  build_dict None (Some (NInt 0))
             (pairs_value [(VInt 1, VInt 2); (VInt 3, VInt 4)])
  = Ok (VDict [(VInt 1, VInt 2)]).
Proof. reflexivity. Qed.


(** The strategy [dictionaries] returns for sizes in [[1, 2]] can reify to
    a dictionary with one key. *)
Example dictionaries_reifies_one_key :
  exists s,
    dictionaries example_upper_bound example_average_list_length
      (OStrategy RandomGeometricIntStrategy) (OStrategy WideRangeIntStrategy)
      (Some (NInt 1)) None (Some (NInt 2)) = Ok s /\
    reifies s (Ok (VDict [(VInt 1, VInt 2)])).
Proof.
  eexists. split; [reflexivity|].
  apply (reify_map _ (build_dict_closure (Some (NInt 1)) (Some (NInt 2)))
                   (pairs_value [(VInt 1, VInt 2); (VInt 1, VInt 2)])).
  apply reify_list.
  - repeat constructor.
  - split; intros b Hb; inversion Hb; reflexivity.
Qed.

(** * Further properties of the constructors *)

(** ** [one_of] and [tuples] reject non-strategies *)

Lemma check_strategies_all args :
  forallb is_strategy args = true ->
  exists ss, args = map OStrategy ss /\ check_strategies args = Ok ss.
Proof.
  induction args as [|[v|s] args IH]; simpl; intros H.
  - exists []. split; reflexivity.
  - discriminate.
  - destruct (IH H) as [ss [-> E]]. exists (s :: ss). split; [reflexivity|].
    unfold check_strategy; simpl. now rewrite E.
Qed.

Lemma check_strategies_some args :
  forallb is_strategy args = false ->
  check_strategies args = Raise InvalidArgument.
Proof.
  induction args as [|[v|s] args IH]; simpl; intros H.
  - discriminate.
  - reflexivity.
  - unfold check_strategy; simpl. now rewrite (IH H).
Qed.

Lemma check_strategies_Ok args ss :
  check_strategies args = Ok ss -> args = map OStrategy ss.
Proof.
  destruct (forallb is_strategy args) eqn:E.
  - destruct (check_strategies_all _ E) as [ss' [-> E']].
    rewrite E'. intros H. inversion H. reflexivity.
  - rewrite (check_strategies_some _ E). discriminate.
Qed.

(** X1: [one_of] raises InvalidArgument as soon as one of its arguments is
    not a strategy, wherever it stands, and returns a strategy when all
    of them are. *)
Theorem one_of_rejects_non_strategies (arg : object) (args : list object) :
  (forallb is_strategy (arg :: args) = false ->
   one_of arg args = Raise InvalidArgument) /\
  (forallb is_strategy (arg :: args) = true ->
   exists s, one_of arg args = Ok s).
Proof.
  split; intros H.
  - unfold one_of. destruct args as [|a args].
    + destruct arg; [reflexivity|discriminate].
    + now rewrite (check_strategies_some _ H).
  - unfold one_of. destruct args as [|a args].
    + destruct arg as [v|s]; [discriminate|]. exists s. reflexivity.
    + destruct (check_strategies_all _ H) as [ss [_ E]]. rewrite E.
      eexists. reflexivity.
Qed.

Lemma one_of_rejects_non_strategies_witness :
  one_of (OStrategy RandomGeometricIntStrategy)
         [OStrategy WideRangeIntStrategy; OValue (VInt 3)]
    = Raise InvalidArgument /\
  exists s, one_of (OStrategy RandomGeometricIntStrategy)
                   [OStrategy WideRangeIntStrategy] = Ok s.
Proof.
  split.
  - apply (one_of_rejects_non_strategies (OStrategy RandomGeometricIntStrategy)
             [OStrategy WideRangeIntStrategy; OValue (VInt 3)]).
    reflexivity.
  - apply (one_of_rejects_non_strategies (OStrategy RandomGeometricIntStrategy)
             [OStrategy WideRangeIntStrategy]).
    reflexivity.
Defined.

(** X2: [tuples] returns a tuple strategy with exactly one component per
    argument, in the order of the arguments, and it raises
    InvalidArgument exactly when some argument is not a strategy. *)
Theorem tuples_one_component_per_argument (args : list object) :
  (forall s, tuples args = Ok s ->
     exists ss, s = TupleStrategy ss /\ args = map OStrategy ss /\
                length ss = length args) /\
  (forall e, tuples args = Raise e ->
     e = InvalidArgument /\ forallb is_strategy args = false).
Proof.
  unfold tuples. split.
  - intros s. destruct (check_strategies args) as [ss|] eqn:E; cbn [bind];
      [|discriminate].
    intros H. inversion H; subst. exists ss. split; [reflexivity|].
    pose proof (check_strategies_Ok _ _ E) as ->.
    split; [reflexivity|]. now rewrite length_map.
  - intros e. destruct (forallb is_strategy args) eqn:F.
    + destruct (check_strategies_all _ F) as [ss [_ E]]. rewrite E. discriminate.
    + rewrite (check_strategies_some _ F). cbn [bind].
      intros H. inversion H. split; reflexivity.
Qed.

(** ** [integers] *)


(** X4: [integers(max_value=m)] maps the integers from 0 through
    [x -> m - x]; the function sends every [x >= 0] to an int that is at
    most [m], and every int up to [m] is the image of some [x >= 0]. *)
Theorem integers_upper_bound_only (m : Z) :
  integers None (Some (NInt m)) =
    Ok (MappedStrategy (IntegersFromStrategy (NInt 0) None)
                       (integers_lambda (NInt m))) /\
  (forall x, 0 <= x ->
     exists y, apply (integers_lambda (NInt m)) (VInt x) = Ok (VInt y) /\ y <= m) /\
  (forall y, y <= m ->
     exists x, 0 <= x /\ apply (integers_lambda (NInt m)) (VInt x) = Ok (VInt y)).
Proof.
  split; [reflexivity|]. split.
  - intros x Hx. exists (m - x). split; [reflexivity|lia].
  - intros y Hy. exists (m - y). split; [lia|].
    cbn. do 2 f_equal. f_equal. lia.
Qed.

(** ** [floats] *)

(** X5: an infinite end point on its own side is the same as no end point:
    [floats(-inf, max_value)] is [floats(None, max_value)] and
    [floats(min_value, inf)] is [floats(min_value, None)]. *)
Theorem floats_infinite_end_point_is_absent (min_value max_value : option num) :
  floats (Some (NFloat PyFloat.neg_inf)) max_value = floats None max_value /\
  floats min_value (Some (NFloat PyFloat.inf)) = floats min_value None.
Proof.
  split.
  - reflexivity.
  - unfold floats. cbn [floats_fuel]. unfold floats_body.
    destruct (check_end_point min_value) as [[]|]; reflexivity.
Qed.

(** Converting an int to float never gives NaN: rounding keeps a
    non-negative mantissa non-negative. *)
Lemma shr_1_nonneg mrs : 0 <= shr_m mrs -> 0 <= shr_m (shr_1 mrs).
Proof.
  destruct mrs as [m r s]. destruct m as [|[p|p|]|[p|p|]]; simpl; lia.
Qed.

Lemma iter_pos_shr_1_nonneg p mrs :
  0 <= shr_m mrs -> 0 <= shr_m (iter_pos shr_1 p mrs).
Proof.
  revert mrs. induction p as [p IH|p IH|]; intros mrs H; simpl.
  - apply IH, IH, shr_1_nonneg, H.
  - apply IH, IH, H.
  - apply shr_1_nonneg, H.
Qed.

Lemma shr_fexp_nonneg prec emax m e l :
  0 <= m -> 0 <= shr_m (fst (shr_fexp prec emax m e l)).
Proof.
  intros H. unfold shr_fexp, shr.
  assert (H0 : 0 <= shr_m (shr_record_of_loc m l))
    by (destruct l as [|[]]; exact H).
  destruct (fexp prec emax (Zdigits2 m + e) - e); simpl; try exact H0.
  apply iter_pos_shr_1_nonneg, H0.
Qed.

Lemma round_nearest_even_nonneg m l : 0 <= m -> 0 <= round_nearest_even m l.
Proof.
  intros H. destruct l as [|[]]; simpl; try lia.
  destruct (Z.even m); lia.
Qed.

Lemma binary_round_aux_not_nan prec emax s m e l :
  0 <= m -> PyFloat.is_nan (binary_round_aux prec emax s m e l) = false.
Proof.
  intros H. unfold binary_round_aux.
  pose proof (shr_fexp_nonneg prec emax m e l H) as H1.
  destruct (shr_fexp prec emax m e l) as [mrs' e']. simpl in H1.
  pose proof (shr_fexp_nonneg prec emax _ e' loc_Exact
                (round_nearest_even_nonneg _ (loc_of_shr_record mrs') H1)) as H2.
  destruct (shr_fexp prec emax _ e' loc_Exact) as [mrs'' e'']. simpl in H2.
  destruct (shr_m mrs''); try lia; try reflexivity.
  destruct (e'' <=? emax - prec); reflexivity.
Qed.

Lemma of_int_not_nan z f : PyFloat.of_int z = Ok f -> PyFloat.is_nan f = false.
Proof.
  unfold PyFloat.of_int.
  assert (H : PyFloat.is_nan (binary_normalize PyFloat.prec PyFloat.emax z 0 false)
              = false).
  { destruct z as [|p|p]; [reflexivity| |]; unfold binary_normalize, binary_round;
      destruct (shl_align _ _ _) as [mz ez];
      apply binary_round_aux_not_nan; lia. }
  destruct (binary_normalize _ _ _ _ _); intros E; inversion E; subst;
    try reflexivity; discriminate.
Qed.

Lemma finite_num_to_float n :
  finite_num n = true -> float_end_point n = true ->
  exists f, to_float n = Ok f /\ PyFloat.is_nan f = false.
Proof.
  destruct n as [z|f]; simpl; intros Hf He.
  - unfold fits_float in He. destruct (PyFloat.of_int z) as [f|] eqn:E;
      [|discriminate].
    exists f. split; [reflexivity|]. exact (of_int_not_nan _ _ E).
  - exists f. split; [reflexivity|]. destruct f; try discriminate; reflexivity.
Qed.

Lemma check_end_point_not_nan n f :
  to_float n = Ok f -> PyFloat.is_nan f = false ->
  check_end_point (Some n) = Ok tt.
Proof.
  intros E N. unfold check_end_point, math_isnan. rewrite E. cbn [bind].
  now rewrite N.
Qed.

Lemma finite_num_not_inf n :
  finite_num n = true ->
  num_eqb n (NFloat PyFloat.neg_inf) = false /\
  num_eqb n (NFloat PyFloat.inf) = false.
Proof.
  intros H. split.
  - destruct (num_eqb n (NFloat PyFloat.neg_inf)) eqn:E; [|reflexivity].
    apply num_eqb_neg_inf in E. subst n. discriminate.
  - destruct (num_eqb n (NFloat PyFloat.inf)) eqn:E; [|reflexivity].
    apply num_eqb_inf in E. subst n. discriminate.
Qed.

Lemma num_eqb_sym a b : num_eqb a b = num_eqb b a.
Proof.
  unfold num_eqb. rewrite (num_compare_antisym a b).
  destruct (num_compare a b) as [[]|]; reflexivity.
Qed.

Lemma num_eqb_not_ltb a b : num_eqb a b = true -> num_ltb b a = false.
Proof.
  intros H. destruct (num_ltb b a) eqn:L; [|reflexivity].
  rewrite (num_ltb_not_eqb _ _ L) in H. discriminate.
Qed.

(** X6: when the two end points are finite and compare equal, [floats]
    returns [just(min_value)]: the constant strategy of the lower end
    point as it was given. *)
Theorem floats_equal_end_points_is_just (lo hi : num) :
  finite_num lo = true ->
  float_end_point lo = true -> float_end_point hi = true ->
  num_eqb lo hi = true ->
  floats (Some lo) (Some hi) = Ok (just (VNum lo)).
Proof.
  intros Hfin Hlo Hhi Heq.
  destruct (finite_num_to_float _ Hfin Hlo) as [fl [El Nl]].
  destruct (float_end_point_to_float _ Hhi) as [fh Eh].
  assert (Nh : PyFloat.is_nan fh = false).
  { destruct hi as [z|f]; simpl in Eh.
    - exact (of_int_not_nan _ _ Eh).
    - inversion Eh; subst. destruct fh; try reflexivity.
      destruct lo as [x|[]]; discriminate. }
  destruct (finite_num_not_inf _ Hfin) as [E1 E2].
  assert (E3 : num_eqb hi (NFloat PyFloat.inf) = false).
  { destruct (num_eqb hi (NFloat PyFloat.inf)) eqn:E; [|reflexivity].
    apply num_eqb_inf in E. subst hi. rewrite E2 in Heq. discriminate. }
  unfold floats. cbn [floats_fuel]. unfold floats_body.
  rewrite (check_end_point_not_nan _ _ El Nl),
          (check_end_point_not_nan _ _ Eh Nh).
  cbn [bind]. rewrite E1, E3, (num_eqb_not_ltb _ _ Heq), Heq. reflexivity.
Qed.

Lemma floats_equal_end_points_is_just_witness :
  floats (Some (NFloat (S754_zero true))) (Some (NInt 0))
  = Ok (just (VFloat (S754_zero true))).
Proof.
  apply (floats_equal_end_points_is_just (NFloat (S754_zero true)) (NInt 0));
    reflexivity.
Defined.

(** X7: [floats] calls itself only on the two halves of an infinitely wide
    range, and those calls make no further call: every bound of two or
    more on the call depth gives the same result, which is never
    RecursionError. *)
Theorem floats_call_depth_at_most_two
    (n : nat) (min_value max_value : option num) :
  floats_fuel (2 + n) min_value max_value = floats_fuel 2 min_value max_value /\
  floats_fuel (2 + n) min_value max_value <> Raise RecursionError.
Proof.
  split.
  - exact (floats_fuel_stable n min_value max_value).
  - rewrite (floats_fuel_stable n min_value max_value).
    apply floats_no_recursion_error.
Qed.

Lemma floats_upper_half m e :
  floats (Some (NInt 0)) (Some (NFloat (S754_finite false m e)))
  = Ok (FixedBoundedFloatStrategy (NInt 0) (NFloat (S754_finite false m e))).
Proof.
  unfold floats. cbn [floats_fuel]. unfold floats_body.
  change (check_end_point (Some (NInt 0))) with (@Ok unit tt).
  cbn [bind check_end_point math_isnan to_float PyFloat.is_nan].
  change (num_eqb (NInt 0) (NFloat PyFloat.neg_inf)) with false.
  change (num_eqb (NFloat (S754_finite false m e)) (NFloat PyFloat.inf))
    with false.
  cbv iota.
  rewrite num_ltb_finite_zero.
  rewrite (proj1 (num_eqb_zero_finite false m e)).
  reflexivity.
Qed.

Lemma floats_lower_half m e :
  floats (Some (NFloat (S754_finite true m e))) (Some (NInt 0))
  = Ok (FixedBoundedFloatStrategy (NFloat (S754_finite true m e)) (NInt 0)).
Proof.
  unfold floats. cbn [floats_fuel]. unfold floats_body.
  change (check_end_point (Some (NInt 0))) with (@Ok unit tt).
  cbn [bind check_end_point math_isnan to_float PyFloat.is_nan].
  change (num_eqb (NInt 0) (NFloat PyFloat.inf)) with false.
  change (num_eqb (NFloat (S754_finite true m e)) (NFloat PyFloat.neg_inf))
    with false.
  cbv iota.
  rewrite num_ltb_zero_finite.
  rewrite (proj2 (num_eqb_zero_finite true m e)).
  reflexivity.
Qed.

(** Finite float end points in order are never rejected. *)
Lemma floats_finite_end_points a b :
  PyFloat.is_finite a = true -> PyFloat.is_finite b = true ->
  num_ltb (NFloat b) (NFloat a) = false ->
  floats (Some (NFloat a)) (Some (NFloat b)) <> Raise InvalidArgument.
Proof.
  intros Fa Fb L.
  assert (Na : PyFloat.is_nan a = false) by (destruct a; try discriminate; reflexivity).
  assert (Nb : PyFloat.is_nan b = false) by (destruct b; try discriminate; reflexivity).
  destruct (finite_num_not_inf (NFloat a) Fa) as [E1 _].
  destruct (finite_num_not_inf (NFloat b) Fb) as [_ E2].
  rewrite floats_unfold. unfold floats_body.
  rewrite (check_end_point_not_nan (NFloat a) a eq_refl Na),
          (check_end_point_not_nan (NFloat b) b eq_refl Nb).
  cbn [bind]. rewrite E1, E2, L.
  destruct (num_eqb (NFloat a) (NFloat b)); [discriminate|].
  change (num_sub (NFloat b) (NFloat a)) with (@Ok num (NFloat (PyFloat.sub b a))).
  cbn [bind]. unfold math_isinf. cbn [to_float bind].
  destruct (PyFloat.is_inf (PyFloat.sub b a)); [|discriminate].
  destruct (num_ltb (NFloat a) (NInt 0)) eqn:La; [|discriminate].
  destruct (num_gtb (NFloat b) (NInt 0)) eqn:Lb; [|discriminate].
  cbn [andb]. rewrite num_gtb_ltb in Lb.
  destruct a as [sa|sa| |sa ma ea]; try discriminate.
  destruct b as [sb|sb| |sb mb eb]; try discriminate.
  rewrite num_ltb_finite_zero in La. rewrite num_ltb_zero_finite in Lb.
  subst sa. destruct sb; [discriminate|].
  rewrite floats_upper_half, floats_lower_half. discriminate.
Qed.

(** X8: on float end points, [floats] raises InvalidArgument exactly when
    an end point is NaN or [max_value < min_value]. *)
Theorem floats_InvalidArgument_iff (a b : option spec_float) :
  floats (option_map NFloat a) (option_map NFloat b) = Raise InvalidArgument
  <->
  nan_end_point a || nan_end_point b
  || below (option_map NFloat b) (option_map NFloat a) = true.
Proof.
  split.
  - intros H.
    destruct (nan_end_point a || nan_end_point b
              || below (option_map NFloat b) (option_map NFloat a)) eqn:E;
      [reflexivity|exfalso].
    apply orb_false_elim in E. destruct E as [E L].
    apply orb_false_elim in E. destruct E as [Na Nb].
    destruct a as [fa|], b as [fb|]; cbn [option_map below nan_end_point] in *.
    + destruct fa as [sa|sa| |sa ma ea], fb as [sb|sb| |sb mb eb];
        try discriminate;
        try (revert H; apply floats_finite_end_points;
             [reflexivity|reflexivity|exact L]);
        destruct sa, sb; try discriminate;
        vm_compute in H; discriminate.
    + destruct fa as [sa|sa| |sa ma ea]; try discriminate;
        try destruct sa; vm_compute in H; discriminate.
    + destruct fb as [sb|sb| |sb mb eb]; try discriminate;
        try destruct sb; vm_compute in H; discriminate.
    + vm_compute in H. discriminate.
  - intros H.
    destruct (nan_end_point a || nan_end_point b) eqn:N.
    + destruct a as [[]|], b as [[]|]; simpl in N; try discriminate; reflexivity.
    + cbn [orb] in H. destruct a as [fa|], b as [fb|]; try discriminate.
      apply floats_conflicting_bounds; [reflexivity|reflexivity|exact H].
Qed.

(** ** Sizes and elements of [lists], [sets] and [dictionaries] *)

Lemma num_eqb_zero_cases mx :
  num_eqb mx (NInt 0) = true ->
  mx = NInt 0 \/ exists s, mx = NFloat (S754_zero s).
Proof.
  destruct mx as [z|[s|s| |s m e]]; intros H.
  - left. rewrite num_eqb_int in H. apply Z.eqb_eq in H. now subst.
  - right. eauto.
  - destruct s; discriminate.
  - discriminate.
  - rewrite (proj2 (num_eqb_zero_finite s m e)) in H. discriminate.
Qed.

Lemma valid_without_average min_size average_size max_size :
  check_valid_sizes min_size average_size max_size = Ok tt ->
  check_valid_sizes min_size None max_size = Ok tt.
Proof.
  intros H. apply check_valid_sizes_Ok in H.
  destruct H as (H1 & H2 & _ & H4 & _).
  rewrite check_valid_sizes_spec, H1, H2, H4.
  destruct max_size; reflexivity.
Qed.

Section MoreCollectionProperties.

Variable template_upper_bound : SearchStrategy -> num.
Variable average_list_length : num.

Local Abbreviation lists' := (lists template_upper_bound average_list_length).
Local Abbreviation sets' := (sets template_upper_bound average_list_length).
Local Abbreviation dictionaries' :=
  (dictionaries template_upper_bound average_list_length).
Local Abbreviation frozensets' :=
  (frozensets template_upper_bound average_list_length).
Local Abbreviation binary' := (binary template_upper_bound average_list_length).

(** X9: [lists], [sets] and [dictionaries] raise InvalidArgument when
    [average_size] lies outside the given bounds, above [max_size] or below
    [min_size]. *)
Theorem average_size_outside_bounds_raises
    (elements keys values : object) (min_size average_size max_size : option num) :
  below max_size average_size || below average_size min_size = true ->
  lists' elements min_size average_size max_size = Raise InvalidArgument /\
  sets' elements min_size average_size max_size = Raise InvalidArgument /\
  dictionaries' keys values min_size average_size max_size
    = Raise InvalidArgument.
Proof.
  intros H.
  assert (E : check_valid_sizes min_size average_size max_size
              = Raise InvalidArgument).
  { rewrite check_valid_sizes_spec. rewrite <- !orb_assoc.
    rewrite H. now rewrite !orb_true_r. }
  unfold lists, sets, dictionaries. rewrite E. repeat split; reflexivity.
Qed.

(** X10: with valid sizes and [max_size == 0] the three constructors
    return the strategy of the empty collection without looking at their
    element arguments, which need not even be strategies. *)
Theorem max_size_zero_ignores_elements
    (elements keys values : object) (min_size average_size : option num)
    (max_size : num) :
  check_valid_sizes min_size average_size (Some max_size) = Ok tt ->
  num_eqb max_size (NInt 0) = true ->
  lists' elements min_size average_size (Some max_size)
    = Ok (ListStrategy [] None None None) /\
  sets' elements min_size average_size (Some max_size)
    = Ok (SetStrategy [] None None) /\
  dictionaries' keys values min_size average_size (Some max_size)
    = Ok (FixedKeysDictStrategy []).
Proof.
  intros Hvalid Hz. split; [|split].
  - unfold lists. rewrite Hvalid. cbn [bind].
    pose proof (check_valid_sizes_Ok _ _ _ Hvalid) as (Hmn & _ & _ & Hb & _).
    assert (Ha : exists a,
      match average_size with
      | Some a => Ok a
      | None =>
          total <- num_add match min_size with
                           | Some n => n
                           | None => NInt 0
                           end max_size ;;
          num_mul total (NFloat PyFloat.half)
      end = Ok a).
    { destruct average_size as [a|]; [eauto|].
      destruct (num_eqb_zero_cases _ Hz) as [->|[s ->]];
        destruct min_size as [[z|f]|]; try (eexists; reflexivity).
      - cbn [below] in Hb. rewrite num_ltb_int in Hb. apply Z.ltb_ge in Hb.
        cbn [invalid_size] in Hmn. rewrite orb_false_r, num_ltb_int in Hmn.
        apply Z.ltb_ge in Hmn. assert (z = 0) by lia. subst z.
        eexists; reflexivity.
      - cbn [below] in Hb. unfold num_ltb in Hb. cbn in Hb.
        cbn [invalid_size] in Hmn. rewrite orb_false_r, num_ltb_int in Hmn.
        apply Z.ltb_ge in Hmn.
        assert (z = 0).
        { destruct (Z.compare_spec z 0); try lia. discriminate. }
        subst z. eexists; reflexivity. }
    destruct Ha as [a Ea]. rewrite Ea. cbn [bind].
    assert (L : num_leb max_size (NInt 0) = true).
    { unfold num_leb. unfold num_eqb in Hz.
      destruct (num_compare max_size (NInt 0)) as [[]|]; try discriminate;
        reflexivity. }
    assert (G : num_gtb max_size (NInt 0) = false).
    { unfold num_gtb. unfold num_eqb in Hz.
      destruct (num_compare max_size (NInt 0)) as [[]|]; try discriminate;
        reflexivity. }
    rewrite L, G, orb_true_r. reflexivity.
  - unfold sets. rewrite Hvalid. cbn [bind]. now rewrite Hz.
  - unfold dictionaries. rewrite Hvalid. cbn [bind]. now rewrite Hz.
Qed.

(** X11: the exceptions of [sets] and [frozensets] are InvalidArgument
    and the OverflowError of formatting an infinite [min_size] into the
    message of the error.  With a [min_size] other than [float('inf')] they
    raise nothing but InvalidArgument; with [min_size = float('inf')],
    valid sizes, a [max_size] other than 0 and an element strategy whose
    upper bound is below infinity, they raise OverflowError. *)
Theorem sets_raise_InvalidArgument_or_format_error
    (elements : object) (min_size average_size max_size : option num) :
  (forall e,
      sets' elements min_size average_size max_size = Raise e \/
      frozensets' elements min_size average_size max_size = Raise e ->
      e = InvalidArgument \/
      (e = OverflowError /\ min_size = Some (NFloat PyFloat.inf))) /\
  (forall s,
      elements = OStrategy s ->
      min_size = Some (NFloat PyFloat.inf) ->
      check_valid_sizes min_size average_size max_size = Ok tt ->
      is_zero max_size = false ->
      num_ltb (template_upper_bound s) (NFloat PyFloat.inf) = true ->
      sets' elements min_size average_size max_size = Raise OverflowError /\
      frozensets' elements min_size average_size max_size = Raise OverflowError).
Proof.
  assert (S : forall e,
             sets' elements min_size average_size max_size = Raise e ->
             e = InvalidArgument \/
             (e = OverflowError /\ min_size = Some (NFloat PyFloat.inf))).
  { intros e. unfold sets.
    destruct (check_valid_sizes_cases min_size average_size max_size) as [E|E];
      rewrite E; cbn [bind]; [|intros H; inversion H; left; reflexivity].
    pose proof (check_valid_sizes_Ok _ _ _ E) as (Hmn & _).
    destruct (match max_size with
              | Some mx => num_eqb mx (NInt 0)
              | None => false
              end); [discriminate|].
    destruct elements as [v|s]; cbn [check_strategy check_type isinstance bind];
      [intros H; inversion H; left; reflexivity|].
    destruct (match min_size with
              | Some m => num_ltb (template_upper_bound s) m
              | None => false
              end); [|destruct min_size; discriminate].
    destruct min_size as [[z|f]|]; cbn [format_d bind];
      try (intros H; inversion H; left; reflexivity).
    destruct f as [s0|s0| |s0 mf ef];
      cbn [format_d PyFloat.is_nan PyFloat.is_inf bind];
      try (intros H; inversion H; left; reflexivity).
    - destruct s0; [vm_compute in Hmn; discriminate|].
      intros H; inversion H. right. split; reflexivity.
    - vm_compute in Hmn. discriminate. }
  split.
  - intros e [H|H]; [exact (S e H)|].
    unfold frozensets in H.
    destruct (sets' elements min_size average_size max_size) as [s|e'];
      cbn [bind] in H; [discriminate|].
    inversion H; subst. apply S. reflexivity.
  - intros s -> -> Hvalid Hnz Hb.
    assert (E : sets' (OStrategy s) (Some (NFloat PyFloat.inf))
                      average_size max_size = Raise OverflowError).
    { unfold sets. rewrite Hvalid. cbn [bind]. unfold is_zero in Hnz.
      rewrite Hnz. cbn [check_strategy check_type isinstance bind].
      rewrite Hb. reflexivity. }
    split; [exact E|]. unfold frozensets. rewrite E. reflexivity.
Qed.


(** X13: [sets] reads [average_size] through [average_size or default], so
    an [average_size] of zero that passes validation gives the same
    strategy as no [average_size] at all. *)
Theorem sets_zero_average_is_default
    (elements : object) (min_size max_size : option num) (a : num) :
  check_valid_sizes min_size (Some a) max_size = Ok tt ->
  num_truthy a = false ->
  sets' elements min_size (Some a) max_size
    = sets' elements min_size None max_size.
Proof.
  intros Hvalid Ha. unfold sets.
  rewrite Hvalid, (valid_without_average _ _ _ Hvalid). cbn [bind num_or].
  now rewrite Ha.
Qed.

(** X14: with valid sizes and [max_size] other than 0, [sets] raises
    InvalidArgument when [elements] is not a strategy, and [dictionaries]
    when [keys] or [values] is not one. *)
Theorem non_strategy_elements_raise
    (v : value) (other : object) (min_size average_size max_size : option num) :
  check_valid_sizes min_size average_size max_size = Ok tt ->
  is_zero max_size = false ->
  sets' (OValue v) min_size average_size max_size = Raise InvalidArgument /\
  dictionaries' (OValue v) other min_size average_size max_size
    = Raise InvalidArgument /\
  dictionaries' other (OValue v) min_size average_size max_size
    = Raise InvalidArgument.
Proof.
  intros Hvalid Hnz. unfold is_zero in Hnz.
  unfold sets, dictionaries. rewrite Hvalid. cbn [bind]. rewrite Hnz.
  split; [reflexivity|]. split; [reflexivity|].
  destruct other; reflexivity.
Qed.

End MoreCollectionProperties.


Lemma sets_zero_average_is_default_witness :
  sets example_upper_bound example_average_list_length
       (OStrategy RandomGeometricIntStrategy) None (Some (NInt 0)) None
  = sets example_upper_bound example_average_list_length
       (OStrategy RandomGeometricIntStrategy) None None None.
Proof.
  apply (sets_zero_average_is_default
           example_upper_bound example_average_list_length
           (OStrategy RandomGeometricIntStrategy) None None (NInt 0));
    reflexivity.
Defined.


Lemma average_size_outside_bounds_raises_witness :
  lists example_upper_bound example_average_list_length
        (OStrategy RandomGeometricIntStrategy)
        (Some (NInt 2)) (Some (NInt 1)) None = Raise InvalidArgument /\
  sets example_upper_bound example_average_list_length
        (OStrategy RandomGeometricIntStrategy)
        (Some (NInt 2)) (Some (NInt 1)) None = Raise InvalidArgument /\
  dictionaries example_upper_bound example_average_list_length
        (OStrategy RandomGeometricIntStrategy) (OStrategy WideRangeIntStrategy)
        (Some (NInt 2)) (Some (NInt 1)) None = Raise InvalidArgument.
Proof.
  apply (average_size_outside_bounds_raises
           example_upper_bound example_average_list_length
           (OStrategy RandomGeometricIntStrategy)
           (OStrategy RandomGeometricIntStrategy)
           (OStrategy WideRangeIntStrategy)
           (Some (NInt 2)) (Some (NInt 1)) None).
  reflexivity.
Defined.

Lemma max_size_zero_ignores_elements_witness :
  lists example_upper_bound example_average_list_length
        (OValue (VInt 5)) None None (Some (NFloat PyFloat.zero))
    = Ok (ListStrategy [] None None None) /\
  sets example_upper_bound example_average_list_length
        (OValue (VInt 5)) None None (Some (NFloat PyFloat.zero))
    = Ok (SetStrategy [] None None) /\
  dictionaries example_upper_bound example_average_list_length
        (OValue VNone) (OValue VNone) None None (Some (NFloat PyFloat.zero))
    = Ok (FixedKeysDictStrategy []).
Proof.
  apply (max_size_zero_ignores_elements
           example_upper_bound example_average_list_length
           (OValue (VInt 5)) (OValue VNone) (OValue VNone)
           None None (NFloat PyFloat.zero)); reflexivity.
Defined.

Lemma non_strategy_elements_raise_witness :
  sets example_upper_bound example_average_list_length
       (OValue VNone) None None None = Raise InvalidArgument /\
  dictionaries example_upper_bound example_average_list_length
       (OValue VNone) (OStrategy WideRangeIntStrategy) None None None
    = Raise InvalidArgument /\
  dictionaries example_upper_bound example_average_list_length
       (OStrategy WideRangeIntStrategy) (OValue VNone) None None None
    = Raise InvalidArgument.
Proof.
  apply (non_strategy_elements_raise
           example_upper_bound example_average_list_length
           VNone (OStrategy WideRangeIntStrategy) None None None); reflexivity.
Defined.

Lemma sets_raise_InvalidArgument_or_format_error_witness :
  sets example_upper_bound example_average_list_length
       (OStrategy (just (VInt 7))) (Some (NFloat PyFloat.inf)) None None
    = Raise OverflowError /\
  frozensets example_upper_bound example_average_list_length
       (OStrategy (just (VInt 7))) (Some (NFloat PyFloat.inf)) None None
    = Raise OverflowError.
Proof.
  apply (proj2 (sets_raise_InvalidArgument_or_format_error
                  example_upper_bound example_average_list_length
                  (OStrategy (just (VInt 7))) (Some (NFloat PyFloat.inf))
                  None None) (just (VInt 7))); reflexivity.
Defined.

(** ** The outcomes of [lists] *)

Section ListsProperties.

Variable template_upper_bound : SearchStrategy -> num.
Variable average_list_length : num.

Local Abbreviation lists' := (lists template_upper_bound average_list_length).
Local Abbreviation binary' := (binary template_upper_bound average_list_length).

(** The average size [lists] settles on, for integer sizes within float
    range. *)
Lemma lists_average_computes min_size max_size average_size :
  sizes_fit_float min_size max_size = true ->
  exists a,
    match average_size with
    | Some a => Ok a
    | None =>
        match option_map NInt max_size with
        | None => Ok average_list_length
        | Some mx =>
            total <- num_add (NInt (or_0 min_size)) mx ;;
            num_mul total (NFloat PyFloat.half)
        end
    end = Ok a.
Proof.
  intros Hfit. apply andb_prop in Hfit. destruct Hfit as [_ Hfit].
  destruct average_size as [a|]; [eauto|].
  destruct max_size as [M|]; cbn [option_map]; [|eauto].
  change (num_add (NInt (or_0 min_size)) (NInt M))
    with (@Ok num (NInt (or_0 min_size + M))).
  cbn [bind]. apply num_mul_fits. exact Hfit.
Qed.

(** The average [lists] computes is [settled_average]. *)
Lemma lists_average_settled min_size max_size average_size :
  match average_size with
  | Some a => Ok a
  | None =>
      match option_map NInt max_size with
      | None => Ok average_list_length
      | Some mx =>
          total <- num_add (NInt (or_0 min_size)) mx ;;
          num_mul total (NFloat PyFloat.half)
      end
  end = settled_average average_list_length min_size average_size max_size.
Proof. destruct average_size, max_size; reflexivity. Qed.


(** X15: when [elements] is not a strategy ([None] included), [lists] with
    valid integer sizes within float range returns the empty-list
    strategy if [max_size] is 0 and raises InvalidArgument otherwise. *)
Theorem lists_without_element_strategy
    (v : value) (min_size max_size : option Z) (average_size : option num) :
  check_valid_sizes (option_map NInt min_size) average_size
                    (option_map NInt max_size) = Ok tt ->
  sizes_fit_float min_size max_size = true ->
  lists' (OValue v) (option_map NInt min_size) average_size
         (option_map NInt max_size)
  = match max_size with
    | Some 0 => Ok (ListStrategy [] None None None)
    | _ => Raise InvalidArgument
    end.
Proof.
  intros Hvalid Hfit. unfold lists. rewrite Hvalid. cbn [bind].
  rewrite min_size_or_0.
  destruct (lists_average_computes _ _ average_size Hfit) as [a Ea].
  rewrite Ea. cbn [bind].
  destruct max_size as [M|]; cbn [option_map].
  - destruct (valid_min_size_le_max _ _ _ Hvalid) as [HM _].
    rewrite num_leb_int, num_gtb_int.
    destruct (M <=? 0) eqn:E.
    + apply Z.leb_le in E. assert (M = 0) by lia. subst M.
      rewrite orb_true_r. reflexivity.
    + apply Z.leb_gt in E. rewrite orb_false_r.
      destruct M as [|p|p]; try lia.
      destruct v; cbn [is_None]; try reflexivity.
  - rewrite orb_false_r. destruct v; reflexivity.
Qed.


(** X17: [lists] computes the default average [(min_size + max_size) * 0.5]
    before it looks at anything else; with integer sizes whose sum is
    beyond the float range and no [average_size] it raises OverflowError,
    whatever the elements. *)
Theorem lists_default_average_overflows
    (elements : object) (min_size : option Z) (M : Z) :
  check_valid_sizes (option_map NInt min_size) None (Some (NInt M)) = Ok tt ->
  fits_float (or_0 min_size + M) = false ->
  lists' elements (option_map NInt min_size) None (Some (NInt M))
  = Raise OverflowError.
Proof.
  intros Hvalid Hfit. unfold lists. rewrite Hvalid. cbn [bind].
  rewrite min_size_or_0.
  change (num_add (NInt (or_0 min_size)) (NInt M))
    with (@Ok num (NInt (or_0 min_size + M))).
  cbn [bind]. unfold num_mul, num_arith. cbn [to_float].
  unfold fits_float in Hfit.
  destruct (PyFloat.of_int (or_0 min_size + M)) as [f|e] eqn:E; [discriminate|].
  rewrite (to_float_exn (NInt (or_0 min_size + M)) e E). reflexivity.
Qed.

(** [lists] over a strategy returns a strategy for all valid integer sizes
    within float range for which the average length is positive. *)
Lemma lists_returns e min_size max_size average_size a :
  check_valid_sizes (option_map NInt min_size) average_size
                    (option_map NInt max_size) = Ok tt ->
  sizes_fit_float min_size max_size = true ->
  settled_average average_list_length min_size average_size max_size = Ok a ->
  num_gtb a (NInt 0) = true ->
  exists s,
    lists' (OStrategy e) (option_map NInt min_size) average_size
           (option_map NInt max_size) = Ok s.
Proof.
  intros Hvalid Hfit Ea Ha. unfold lists. rewrite Hvalid. cbn [bind].
  rewrite min_size_or_0, lists_average_settled, Ea. cbn [bind is_None orb].
  apply andb_prop in Hfit. destruct Hfit as [Hfit0 _].
  destruct max_size as [M|]; cbn [option_map].
  - destruct (valid_min_size_le_max _ _ _ Hvalid) as [HM HmM].
    rewrite num_leb_int, num_gtb_int.
    destruct (M <=? 0) eqn:E.
    + apply Z.leb_le in E.
      destruct (0 <? M) eqn:E'; [apply Z.ltb_lt in E'; lia|]. eauto.
    + cbn [check_strategy check_type isinstance bind].
      destruct (num_eqb (template_upper_bound e) (NInt 1)).
      * destruct (integers_within_bounds _ _ HmM) as [ls [Els _]].
        rewrite Els. cbn [bind]. eauto.
      * unfold new_ListStrategy. rewrite Ha. eauto.
  - cbn [check_strategy check_type isinstance bind].
    destruct (num_eqb (template_upper_bound e) (NInt 1)).
    + destruct (num_sub_fits a _ Hfit0) as [w Ew]. rewrite Ew. cbn [bind]. eauto.
    + unfold new_ListStrategy. rewrite Ha. eauto.
Qed.

(** X18: [binary] builds its list strategy over [integers(0, 255)], the
    bounded strategy from 0 to 255, and for valid integer sizes within
    float range whose average length (as [lists] settles on it) is
    positive it returns a strategy wrapping that list strategy. *)
Theorem binary_returns_for_valid_sizes
    (min_size max_size : option Z) (average_size : option num) (a : num) :
  check_valid_sizes (option_map NInt min_size) average_size
                    (option_map NInt max_size) = Ok tt ->
  sizes_fit_float min_size max_size = true ->
  settled_average average_list_length min_size average_size max_size = Ok a ->
  num_gtb a (NInt 0) = true ->
  exists list_strategy,
    lists' (OStrategy (BoundedIntStrategy (NInt 0) (NInt 255)))
           (option_map NInt min_size) average_size (option_map NInt max_size)
      = Ok list_strategy /\
    binary' (option_map NInt min_size) average_size (option_map NInt max_size)
      = Ok (BinaryStringStrategy list_strategy).
Proof.
  intros Hvalid Hfit Ea Ha.
  destruct (lists_returns (BoundedIntStrategy (NInt 0) (NInt 255))
              _ _ _ _ Hvalid Hfit Ea Ha) as [ls Els].
  exists ls. split; [exact Els|].
  unfold binary.
  change (integers (Some (NInt 0)) (Some (NInt 255)))
    with (@Ok SearchStrategy (BoundedIntStrategy (NInt 0) (NInt 255))).
  cbn [bind]. now rewrite Els.
Qed.

End ListsProperties.

Lemma lists_without_element_strategy_witness :
  lists example_upper_bound example_average_list_length
        (OValue VNone) None None (Some (NInt 3)) = Raise InvalidArgument.
Proof.
  apply (lists_without_element_strategy
           example_upper_bound example_average_list_length
           VNone None (Some 3) None).
  - reflexivity.
  - vm_compute. reflexivity.
Defined.


Lemma lists_default_average_overflows_witness :
  lists example_upper_bound example_average_list_length
        (OStrategy RandomGeometricIntStrategy) None None (Some (NInt (2 ^ 1024)))
  = Raise OverflowError.
Proof.
  apply (lists_default_average_overflows
           example_upper_bound example_average_list_length
           (OStrategy RandomGeometricIntStrategy) None (2 ^ 1024)).
  - reflexivity.
  - vm_compute. reflexivity.
Defined.

Lemma binary_returns_for_valid_sizes_witness :
  exists list_strategy,
    lists example_upper_bound example_average_list_length
          (OStrategy (BoundedIntStrategy (NInt 0) (NInt 255)))
          (Some (NInt 1)) None (Some (NInt 4)) = Ok list_strategy /\
    binary example_upper_bound example_average_list_length
           (Some (NInt 1)) None (Some (NInt 4))
      = Ok (BinaryStringStrategy list_strategy).
Proof.
  apply (binary_returns_for_valid_sizes
           example_upper_bound example_average_list_length
           (Some 1) (Some 4) None
           (NFloat (S754_finite false 5629499534213120 (-51)))).
  - reflexivity.
  - vm_compute. reflexivity.
  - vm_compute. reflexivity.
  - vm_compute. reflexivity.
Defined.

(** An [average_size] of 0 passes validation and reaches the list
    strategy, which refuses it. *)
Example zero_average_size_is_refused :
  check_valid_sizes None (Some (NInt 0)) None = Ok tt /\
  lists example_upper_bound example_average_list_length
        (OStrategy RandomGeometricIntStrategy) None (Some (NInt 0)) None
    = Raise AssertionError /\
  binary example_upper_bound example_average_list_length
         None (Some (NInt 0)) None
    = Raise AssertionError.
Proof. repeat split; vm_compute; reflexivity. Qed.

(** ** More on [build_dict] *)

Lemma int_compare_ge_mono x y f :
  x <= y ->
  match PyFloat.int_compare x f with Some (Gt | Eq) => true | _ => false end = true ->
  match PyFloat.int_compare y f with Some (Gt | Eq) => true | _ => false end = true.
Proof.
  intros Hxy. destruct f as [s|s| |s m e]; cbn [PyFloat.int_compare];
    try (intros; assumption).
  - destruct (Z.compare_spec x 0); try discriminate;
      destruct (Z.compare_spec y 0); intros; try reflexivity; lia.
  - set (v := cond_Zopp s (Z.pos m)). destruct (0 <=? e).
    + destruct (Z.compare_spec x (v * 2 ^ e)); try discriminate;
        destruct (Z.compare_spec y (v * 2 ^ e)); intros; try reflexivity; lia.
    + pose proof (Z.pow_nonneg 2 (- e) ltac:(lia)) as HP.
      destruct (Z.compare_spec (x * 2 ^ (- e)) v); try discriminate;
        destruct (Z.compare_spec (y * 2 ^ (- e)) v); intros;
        try reflexivity; nia.
Qed.

Lemma num_geb_mono x y m :
  x <= y -> num_geb (NInt x) m = true -> num_geb (NInt y) m = true.
Proof.
  intros Hxy. destruct m as [z|f].
  - rewrite !num_geb_int. intros H. apply Z.leb_le in H. apply Z.leb_le. lia.
  - unfold num_geb. cbn [num_compare]. now apply int_compare_ge_mono.
Qed.

Lemma build_dict_loop_sizes max_size items acc d :
  (forall m, max_size = Some m -> 1 <= dict_len acc ->
             num_geb (NInt (dict_len acc)) m = false) ->
  build_dict_loop max_size items acc = Ok d ->
  dict_len acc <= dict_len d <= dict_len acc + Z.of_nat (length items) /\
  (items <> [] -> 1 <= dict_len d) /\
  (forall m, max_size = Some m -> 2 <= dict_len d ->
             num_geb (NInt (dict_len d - 1)) m = false).
Proof.
  revert acc. induction items as [|item items IH]; intros acc Hacc.
  - cbn [build_dict_loop]. intros H. inversion H; subst.
    split; [simpl; lia|]. split; [congruence|].
    intros m Hm Hd.
    destruct (num_geb (NInt (dict_len d - 1)) m) eqn:E; [|reflexivity].
    pose proof (num_geb_mono (dict_len d - 1) (dict_len d) m ltac:(lia) E)
      as Ht.
    rewrite (Hacc m Hm ltac:(lia)) in Ht. discriminate.
  - cbn [build_dict_loop].
    destruct (unpack_pair item) as [[k v]|]; cbn [bind fst snd]; [|discriminate].
    unfold dict_setitem. destruct (hashable k); cbn [bind]; [|discriminate].
    pose proof (dict_update_len k v acc) as [Hlen H1].
    set (res' := dict_update k v acc) in *.
    assert (HS : Z.of_nat (length (item :: items))
                 = 1 + Z.of_nat (length items))
      by (cbn [length]; lia).
    destruct (match max_size with
              | Some m => num_geb (NInt (dict_len res')) m
              | None => false
              end) eqn:T.
    + intros H. inversion H; subst d. split; [lia|]. split; [intros _; lia|].
      intros m Hm Hd. subst max_size.
      destruct (Z.eq_dec (dict_len res') (dict_len acc)) as [E|E].
      * rewrite E in T. rewrite (Hacc m eq_refl ltac:(lia)) in T. discriminate.
      * replace (dict_len res' - 1) with (dict_len acc) by lia.
        apply (Hacc m eq_refl). lia.
    + intros H. apply IH in H.
      * destruct H as (Hb & _ & Hc). split; [lia|]. split; [intros _; lia|].
        exact Hc.
      * intros m Hm _. subst max_size. exact T.
Qed.

(** X19: a dictionary returned by [build_dict] never has more keys than
    the data has items and has at least one key when the data is not
    empty; and for any [max_size], fractional ones included, a result
    with two or more keys has fewer than [max_size + 1] of them: the loop
    stops at the first insertion that reaches [max_size]. *)
Theorem build_dict_size_bounds
    (min_size max_size : option num) (data : value) (items : list value)
    (v : value) :
  py_iter data = Ok items ->
  build_dict min_size max_size data = Ok v ->
  exists d,
    v = VDict d /\
    dict_len d <= Z.of_nat (length items) /\
    (items <> [] -> 1 <= dict_len d) /\
    (forall m, max_size = Some m -> 2 <= dict_len d ->
               num_geb (NInt (dict_len d - 1)) m = false).
Proof.
  intros Hit. unfold build_dict. rewrite Hit. cbn [bind].
  destruct (build_dict_loop max_size items []) as [d|] eqn:El; cbn [bind];
    [|discriminate].
  destruct (assume _); cbn [bind]; [|discriminate].
  intros H. inversion H; subst. exists d. split; [reflexivity|].
  apply build_dict_loop_sizes in El.
  - destruct El as (Hb & Hne & Hc). change (dict_len []) with 0 in Hb.
    split; [lia|]. split; assumption.
  - intros m _ Hlen. change (dict_len []) with 0 in Hlen. lia.
Qed.

Lemma build_dict_size_bounds_witness :
  exists d,
    VDict [(VInt 1, VInt 2)] = VDict d /\
    dict_len d <= Z.of_nat (length [VTuple [VInt 1; VInt 2];
                                    VTuple [VInt 3; VInt 4]]) /\
    ([VTuple [VInt 1; VInt 2]; VTuple [VInt 3; VInt 4]] <> [] ->
     1 <= dict_len d) /\
    (forall m, Some (NFloat PyFloat.half) = Some m -> 2 <= dict_len d ->
               num_geb (NInt (dict_len d - 1)) m = false).
Proof.
  apply (build_dict_size_bounds None (Some (NFloat PyFloat.half))
           (VList [VTuple [VInt 1; VInt 2]; VTuple [VInt 3; VInt 4]])
           [VTuple [VInt 1; VInt 2]; VTuple [VInt 3; VInt 4]]
           (VDict [(VInt 1, VInt 2)])); reflexivity.
Defined.

Lemma dict_update_keys (P : value -> Prop) k v d :
  Forall (fun kv => P (fst kv)) d -> P k ->
  Forall (fun kv => P (fst kv)) (dict_update k v d).
Proof.
  intros Hd Hk. induction Hd as [|[k' v'] rest Hk' Hrest IH]; simpl.
  - constructor; [exact Hk|constructor].
  - destruct (py_eqb k' k); constructor; assumption.
Qed.

Lemma dict_update_distinct k v d :
  distinct_keys d -> distinct_keys (dict_update k v d).
Proof.
  induction d as [|[k' v'] rest IH]; simpl.
  - intros _. split; [constructor|exact I].
  - intros [HF Hrest]. destruct (py_eqb k' k) eqn:E; simpl.
    + split; assumption.
    + split; [|apply IH, Hrest].
      apply (dict_update_keys (fun x => py_eqb k' x = false)); assumption.
Qed.

Lemma build_dict_loop_distinct max_size items acc d :
  distinct_keys acc ->
  build_dict_loop max_size items acc = Ok d -> distinct_keys d.
Proof.
  revert acc. induction items as [|item items IH]; intros acc Hacc.
  - cbn [build_dict_loop]. intros H. inversion H; subst. exact Hacc.
  - cbn [build_dict_loop].
    destruct (unpack_pair item) as [[k v]|]; cbn [bind fst snd]; [|discriminate].
    unfold dict_setitem. destruct (hashable k); cbn [bind]; [|discriminate].
    pose proof (dict_update_distinct k v acc Hacc) as Hres.
    destruct (match max_size with
              | Some m => num_geb (NInt (dict_len (dict_update k v acc))) m
              | None => false
              end).
    + intros H. inversion H; subst. exact Hres.
    + apply IH. exact Hres.
Qed.

(** X20: no two keys of a dictionary returned by [build_dict] compare
    equal: a pair whose key equals an earlier key overwrites that key's
    value instead of adding a key. *)
Theorem build_dict_keys_distinct
    (min_size max_size : option num) (data : value) (d : dict) :
  build_dict min_size max_size data = Ok (VDict d) -> distinct_keys d.
Proof.
  unfold build_dict.
  destruct (py_iter data) as [items|]; cbn [bind]; [|discriminate].
  destruct (build_dict_loop max_size items []) as [d'|] eqn:El; cbn [bind];
    [|discriminate].
  destruct (assume _); cbn [bind]; [|discriminate].
  intros H. inversion H; subst.
  apply (build_dict_loop_distinct max_size items [] d); [exact I|exact El].
Qed.

Lemma build_dict_keys_distinct_witness :
  distinct_keys [(VInt 1, VInt 5); (VInt 3, VInt 4)].
Proof.
  apply (build_dict_keys_distinct None None
           (pairs_value [(VInt 1, VInt 2); (VInt 3, VInt 4);
                         (VFloat (S754_finite false 4503599627370496 (-52)),
                          VInt 5)])).
  reflexivity.
Defined.

Lemma dict_update_entries k v d k0 v0 :
  In (k0, v0) (dict_update k v d) ->
  In (k0, v0) d \/
  (v0 = v /\ (k0 = k \/ (py_eqb k0 k = true /\ exists v1, In (k0, v1) d))).
Proof.
  induction d as [|[k' v'] rest IH]; simpl.
  - intros [H|[]]. inversion H; subst. right. split; [reflexivity|]. now left.
  - destruct (py_eqb k' k) eqn:E; simpl.
    + intros [H|H].
      * inversion H; subst. right. split; [reflexivity|]. right.
        split; [exact E|]. exists v'. now left.
      * left. now right.
    + intros [H|H].
      * left. now left.
      * destruct (IH H) as [H'|[-> [->|[Ek [v1 H1]]]]].
        -- left. now right.
        -- right. split; [reflexivity|]. now left.
        -- right. split; [reflexivity|]. right. split; [exact Ek|].
           exists v1. now right.
Qed.

Lemma build_dict_loop_entries max_size all items acc d :
  incl items all ->
  (forall k v, In (k, v) acc ->
     (exists item v', In item all /\ unpack_pair item = Ok (k, v')) /\
     (exists item k', In item all /\ unpack_pair item = Ok (k', v) /\
                      (k' = k \/ py_eqb k k' = true))) ->
  build_dict_loop max_size items acc = Ok d ->
  forall k v, In (k, v) d ->
     (exists item v', In item all /\ unpack_pair item = Ok (k, v')) /\
     (exists item k', In item all /\ unpack_pair item = Ok (k', v) /\
                      (k' = k \/ py_eqb k k' = true)).
Proof.
  revert acc. induction items as [|item items IH]; intros acc Hincl Hacc.
  - cbn [build_dict_loop]. intros H. inversion H; subst. exact Hacc.
  - cbn [build_dict_loop].
    destruct (unpack_pair item) as [[k v]|] eqn:Eu; cbn [bind fst snd];
      [|discriminate].
    unfold dict_setitem. destruct (hashable k); cbn [bind]; [|discriminate].
    assert (Hitem : In item all) by (apply Hincl; now left).
    assert (Hres : forall k0 v0, In (k0, v0) (dict_update k v acc) ->
       (exists item v', In item all /\ unpack_pair item = Ok (k0, v')) /\
       (exists item k', In item all /\ unpack_pair item = Ok (k', v0) /\
                        (k' = k0 \/ py_eqb k0 k' = true))).
    { intros k0 v0 Hin.
      destruct (dict_update_entries _ _ _ _ _ Hin)
        as [Hold|[-> [->|[Ek [v1 H1]]]]].
      - apply Hacc, Hold.
      - split; [exists item, v|exists item, k]; repeat split; auto.
      - split; [exact (proj1 (Hacc _ _ H1))|].
        exists item, k. repeat split; auto. }
    destruct (match max_size with
              | Some m => num_geb (NInt (dict_len (dict_update k v acc))) m
              | None => false
              end).
    + intros H. inversion H; subst. exact Hres.
    + apply IH; [|exact Hres]. intros x Hx. apply Hincl. now right.
Qed.

(** X21: [build_dict] invents nothing: every key of the dictionary it
    returns is the key of a drawn pair, and the value stored under it is
    the value of a drawn pair whose key is that key or compares equal to
    it. *)
Theorem build_dict_entries_were_drawn
    (min_size max_size : option num) (data : value) (items : list value)
    (d : dict) :
  py_iter data = Ok items ->
  build_dict min_size max_size data = Ok (VDict d) ->
  forall k v, In (k, v) d ->
    (exists item v', In item items /\ unpack_pair item = Ok (k, v')) /\
    (exists item k', In item items /\ unpack_pair item = Ok (k', v) /\
                     (k' = k \/ py_eqb k k' = true)).
Proof.
  intros Hit. unfold build_dict. rewrite Hit. cbn [bind].
  destruct (build_dict_loop max_size items []) as [d'|] eqn:El; cbn [bind];
    [|discriminate].
  destruct (assume _); cbn [bind]; [|discriminate].
  intros H. inversion H; subst.
  apply (build_dict_loop_entries max_size items items [] d);
    [apply incl_refl | intros k v [] | exact El].
Qed.

Lemma build_dict_entries_were_drawn_witness :
  (exists item v',
      In item [VTuple [VInt 1; VInt 2]; VTuple [VInt 3; VInt 4];
               VTuple [VInt 1; VInt 5]] /\
      unpack_pair item = Ok (VInt 1, v')) /\
  (exists item k',
      In item [VTuple [VInt 1; VInt 2]; VTuple [VInt 3; VInt 4];
               VTuple [VInt 1; VInt 5]] /\
      unpack_pair item = Ok (k', VInt 5) /\
      (k' = VInt 1 \/ py_eqb (VInt 1) k' = true)).
Proof.
  apply (build_dict_entries_were_drawn None None
           (VList [VTuple [VInt 1; VInt 2]; VTuple [VInt 3; VInt 4];
                   VTuple [VInt 1; VInt 5]])
           [VTuple [VInt 1; VInt 2]; VTuple [VInt 3; VInt 4];
            VTuple [VInt 1; VInt 5]]
           [(VInt 1, VInt 5); (VInt 3, VInt 4)]
           eq_refl eq_refl (VInt 1) (VInt 5)).
  left. reflexivity.
Defined.
